(** * Battery pickup service: order store and quote pricing

    A shallow embedding of [battery_pickup_service/package_data.py] (the
    value objects, the [Order] entity, [PackagingSystem.find_orders],
    [PackagingSystem.quote_reply], [PackagingSystem.quote]) and of the
    acceptance branch of [handle_quote_request] in [app.py].

    Conventions of the embedding.
    - Python's [None] in an attribute is [None] of an [option].
    - JSON numbers (Python [int] and [float]) are exact rationals [Q]; the
      rounding error of binary64 arithmetic is not modelled.  Numeric
      equality is [Qeq] (written [==]).
    - The [orders] dict is a [gmap] from order ids to orders; the rate
      tables are lists of records, the base-value dict a [gmap] on strings.
    - A Python exception is the [Raise] outcome of a [result].
    - [with self._order_lock] encloses single dict accesses; calls are
      modelled one at a time, so the lock is transparent. *)

From Stdlib Require Import QArith Qround Qminmax Qabs Lqa.
From stdpp Require Import gmap strings list fin_maps.
Close Scope Q_scope.

(** ** Outcomes of a call *)

Inductive exn : Type :=
| KeyError (key : string).

Inductive result (A : Type) : Type :=
| Return (a : A)
| Raise (e : exn).
Arguments Return {A} a.
Arguments Raise {A} e.

#[global] Instance result_ret : MRet result := λ A a, Return a.
#[global] Instance result_bind : MBind result := λ A B k r,
  match r with
  | Return a => k a
  | Raise e => Raise e
  end.

(** ** Value objects *)

(** The values the front door can hand over as an acceptance answer. *)
Inductive pyval : Type :=
| PNone
| PBool (b : bool)
| PNum (q : Q)
| PStr (s : string).

Section BaseData.
Context {V : Type} (ne : V → V → bool).

(** [BaseData.__eq__]: [self] and [other] are given by their
    [getattr(_, slot, None)]; the loop answers [False] at the first slot
    that is missing on either side or differs. *)
Fixpoint BaseData_eq (slots : list string)
    (self other : string → option V) : bool :=
  match slots with
  | [] => true
  | slot :: rest =>
      match self slot, other slot with
      | None, _ => false
      | Some _, None => false
      | Some a, Some b => if ne a b then false else BaseData_eq rest self other
      end
  end.

(** [BaseData.__ne__] *)
Definition BaseData_ne (slots : list string)
    (self other : string → option V) : bool :=
  negb (BaseData_eq slots self other).
End BaseData.

Definition str_ne (a b : string) : bool := negb (String.eqb a b).
Definition int_ne (a b : Z) : bool := negb (Z.eqb a b).

Record LocationInformation : Type := mkLocation {
  state : option string;
  city : option string;
  street_address : option string;
  zip_code : option string
}.

Definition LocationInformation_slots : list string :=
  ["state"; "city"; "street_address"; "zip_code"].

Definition LocationInformation_getattr (l : LocationInformation)
    (slot : string) : option string :=
  if String.eqb slot "state" then state l
  else if String.eqb slot "city" then city l
  else if String.eqb slot "street_address" then street_address l
  else if String.eqb slot "zip_code" then zip_code l
  else None.

Record DateInformation : Type := mkDate {
  day : option Z;
  month : option Z;
  year : option Z
}.

Definition DateInformation_slots : list string := ["day"; "month"; "year"].

Definition DateInformation_getattr (d : DateInformation)
    (slot : string) : option Z :=
  if String.eqb slot "day" then day d
  else if String.eqb slot "month" then month d
  else if String.eqb slot "year" then year d
  else None.

(** [getattr(other, slot, None)] when [other] may be [None], which has none
    of the slots. *)
Definition getattr_or_None {T V} (get : T → string → option V)
    (other : option T) (slot : string) : option V :=
  match other with
  | Some o => get o slot
  | None => None
  end.

(** [self == other] for a location; [other] is whatever an order holds in
    its [location] attribute. *)
Definition LocationInformation_eq (self : LocationInformation)
    (other : option LocationInformation) : bool :=
  BaseData_eq str_ne LocationInformation_slots
    (LocationInformation_getattr self)
    (getattr_or_None LocationInformation_getattr other).

Definition DateInformation_eq (self : DateInformation)
    (other : option DateInformation) : bool :=
  BaseData_eq int_ne DateInformation_slots
    (DateInformation_getattr self)
    (getattr_or_None DateInformation_getattr other).

Record BatteryPackage : Type := mkPackage {
  battery_type : string;
  battery_weight : Q;
  quality : Q;
  return_reason : string
}.

(** ** The quote table

    [pd.DataFrame(rows, index=labels)]: a list of labelled rows.  A cell is
    a string, a number, or the text [f"{bonus}%"] kept as the number it
    prints. *)

Inductive cell : Type :=
| CStr (s : string)
| CNum (q : Q)
| CPercent (q : Q).

Record DataFrame : Type := mkDataFrame {
  index : list string;
  data : list (list cell)
}.

(** ** Orders *)

Record Order : Type := mkOrder {
  order_id : option Z;
  distance_to_ship : Q;
  location : option LocationInformation;
  date : option DateInformation;
  packages : list BatteryPackage;
  total_cost : option Q;
  accepted : pyval;
  df : option DataFrame
}.

(** [Order.__init__] with its default arguments. *)
Definition Order_init : Order :=
  {| order_id := None; distance_to_ship := 0; location := None; date := None;
     packages := []; total_cost := None; accepted := PBool false; df := None |}.

Definition set_accepted (answer : pyval) (o : Order) : Order :=
  {| order_id := order_id o; distance_to_ship := distance_to_ship o;
     location := location o; date := date o; packages := packages o;
     total_cost := total_cost o; accepted := answer; df := df o |}.

Definition set_total_cost (t : Q) (o : Order) : Order :=
  {| order_id := order_id o; distance_to_ship := distance_to_ship o;
     location := location o; date := date o; packages := packages o;
     total_cost := Some t; accepted := accepted o; df := df o |}.

Definition set_df (d : DataFrame) (o : Order) : Order :=
  {| order_id := order_id o; distance_to_ship := distance_to_ship o;
     location := location o; date := date o; packages := packages o;
     total_cost := total_cost o; accepted := accepted o; df := Some d |}.

(** ** Rate tables and the packaging system *)

Record QualityTier : Type := mkQualityTier {
  max_percent : Q;
  quality_multiplier : Q
}.

Record WeightTier : Type := mkWeightTier {
  max_weight : Q;
  weight_multiplier : Q
}.

Record DistanceTier : Type := mkDistanceTier {
  min_distance : Q;
  distance_multiplier : Q
}.

Record BonusTier : Type := mkBonusTier {
  min_packages : Q;
  percent : Q
}.

(** The attributes [PackagingSystem.__init__] sets and the operations read
    ([package_types] and [battery_packaging] are stored and never read). *)
Record PackagingSystem : Type := mkPackagingSystem {
  qualities : list QualityTier;
  weights : list WeightTier;
  battery_base_value : gmap string Q;
  distance : list DistanceTier;
  bonus : list BonusTier;
  orders : gmap Z Order
}.

Definition set_orders (os : gmap Z Order) (self : PackagingSystem)
    : PackagingSystem :=
  {| qualities := qualities self; weights := weights self;
     battery_base_value := battery_base_value self;
     distance := distance self; bonus := bonus self; orders := os |}.

(** ** Searching the store *)

(** [_simple_compare(x, y, var)]: [eq] is the [__eq__] of [x]'s class and
    [var] the attribute read by [getattr(y, var)]. *)
Definition _simple_compare {T} (eq : T → option T → bool)
    (x : T) (y : Order) (var : Order → option T) : option Order :=
  if eq x (var y) then Some y else None.

(** [_find_inner_data(func, compare_var, list_vars, var)].  One future is
    submitted per index of [list_vars]; [as_completed] hands them back in
    the order [completed] in which the pool finished them, and the results
    that are not [None] are appended in that order. *)
Definition _find_inner_data {T}
    (func : T → Order → (Order → option T) → option Order)
    (compare_var : T) (list_vars : list Order) (var : Order → option T)
    (completed : list nat) : list Order :=
  omap (λ i, y ← list_vars !! i; func compare_var y var) completed.

(** A completion order of [n] submitted futures: each index once. *)
Definition completion_order (n : nat) (completed : list nat) : Prop :=
  completed ≡ₚ seq 0 n.

(** [PackagingSystem.find_orders(order_id, location, date)]; [completed1]
    and [completed2] are the completion orders of the two fan-outs.  The
    outer [None] is the [return None] of the call without id and location. *)
Definition find_orders (self : PackagingSystem) (oid : option Z)
    (loc : option LocationInformation) (dt : option DateInformation)
    (completed1 completed2 : list nat) : option (list (option Order)) :=
  match oid with
  | Some i => Some [orders self !! i]
  | None =>
      match loc with
      | None => None
      | Some l =>
          let snapshot := (map_to_list (orders self)).*2 in
          let matching_results :=
            _find_inner_data (_simple_compare LocationInformation_eq)
              l snapshot location completed1 in
          let matching_results :=
            match matching_results, dt with
            | _ :: _, Some d =>
                _find_inner_data (_simple_compare DateInformation_eq)
                  d matching_results date completed2
            | _, _ => matching_results
            end in
          Some (Some <$> matching_results)
      end
  end.

(** ** Accepting a quote *)

(** [PackagingSystem.quote_reply(order_id, answer)] *)
Definition quote_reply (self : PackagingSystem) (oid : Z) (answer : pyval)
    : PackagingSystem :=
  match orders self !! oid with
  | Some o => set_orders (<[oid := set_accepted answer o]> (orders self)) self
  | None => self
  end.

(** [isinstance(answer, bool)] *)
Definition isinstance_bool (answer : pyval) : bool :=
  match answer with
  | PBool _ => true
  | _ => false
  end.

(** [bool(answer)] *)
Definition py_bool (answer : pyval) : bool :=
  match answer with
  | PNone => false
  | PBool b => b
  | PNum q => negb (Qeq_bool q 0)
  | PStr s => negb (String.eqb s "")
  end.

Inductive message : Type :=
| MsgSetTo (oid : Z) (b : bool)   (* f"Order ID: {order_id} set to {b}" *)
| MsgNotBool.                     (* "answer was not true/false, using false" *)

(** The branch of [handle_quote_request] taken when the request carries
    both [order_id] and [accept]: the reply text, the status code and the
    packaging system afterwards. *)
Definition handle_quote_request_accept (psystem : PackagingSystem)
    (oid : Z) (answer : pyval) : (message * Z) * PackagingSystem :=
  let return_code := 200%Z in
  let return_msg := MsgSetTo oid (py_bool answer) in
  let '(return_msg, return_code, answer) :=
    if negb (isinstance_bool answer)
    then (MsgNotBool, 400%Z, PBool false)
    else (return_msg, return_code, answer) in
  ((return_msg, return_code), quote_reply psystem oid answer).

(** ** Pricing *)

(** [max(xs)] on a list with first element [x]: a later item replaces the
    running maximum only when it is strictly greater. *)
Definition py_max (x : Q) (rest : list Q) : Q :=
  fold_left (λ m item, if Qle_bool item m then m else item) rest x.

(** Nearest integer, ties to the even one. *)
Definition round_half_even (x : Q) : Z :=
  let n := Qnum x in
  let d := Z.pos (Qden x) in
  let fl := (n / d)%Z in
  let twice := (2 * (n mod d))%Z in
  if (twice <? d)%Z then fl
  else if (d <? twice)%Z then (fl + 1)%Z
  else if Z.even fl then fl else (fl + 1)%Z.

(** [round(x, ndigits)] for [ndigits >= 0]. *)
Definition py_round (x : Q) (ndigits : nat) : Q :=
  let scale := (10 ^ Z.of_nat ndigits)%Z in
  Qmake (round_half_even (x * inject_Z scale)%Q) (Z.to_pos scale).

(** [sum(xs)] *)
Definition py_sum (xs : list Q) : Q := fold_left Qplus xs 0%Q.

(** Lines 274-277: the [for d in self.distance] loop. *)
Definition distance_loop (distance_v : Q) (tiers : list DistanceTier)
    (distance_mult : Q) : Q :=
  fold_left
    (λ distance_mult d,
       if Qle_bool (min_distance d) distance_v
       then distance_multiplier d else distance_mult)
    tiers distance_mult.

(** Lines 284-287: the [for quality in self.qualities] loop. *)
Definition quality_loop (package : BatteryPackage) (tiers : list QualityTier)
    (quality_mult : Q) : Q :=
  fold_left
    (λ quality_mult q,
       if Qle_bool (quality package) (max_percent q)
       then quality_multiplier q else quality_mult)
    tiers quality_mult.

(** Lines 300-304: the [for w in self.weights] loop, left by [break]. *)
Fixpoint weight_loop (total_weight : Q) (tiers : list WeightTier)
    (weight_mult : Q) : Q :=
  match tiers with
  | [] => weight_mult
  | w :: rest =>
      if Qle_bool total_weight (max_weight w)
      then weight_multiplier w
      else weight_loop total_weight rest weight_mult
  end.

(** Lines 308-311: the [for b in self.bonus] loop. *)
Definition bonus_loop (npackages : nat) (tiers : list BonusTier)
    (bonus_v : Q) : Q :=
  fold_left
    (λ bonus_v b,
       if Qle_bool (min_packages b) (inject_Z (Z.of_nat npackages))
       then percent b else bonus_v)
    tiers bonus_v.

(** The variables the [for package in order.packages] loop updates. *)
Record package_vars : Type := mkPackageVars {
  pv_total_to_pay : Q;
  pv_total_weight : Q;
  pv_battery_types : list string;
  pv_battery_weights : list Q;
  pv_battery_values : list Q;
  pv_battery_qualities : list Q
}.

(** Lines 283-298.  [self.battery_base_value[package.battery_type]] raises
    [KeyError] on a type the mapping does not have. *)
Fixpoint package_loop (self : PackagingSystem) (ps : list BatteryPackage)
    (v : package_vars) : result package_vars :=
  match ps with
  | [] => Return v
  | package :: rest =>
      let quality_mult := quality_loop package (qualities self) 0%Q in
      match battery_base_value self !! battery_type package with
      | None => Raise (KeyError (battery_type package))
      | Some base =>
          package_loop self rest
            {| pv_total_to_pay := (pv_total_to_pay v + base * quality_mult)%Q;
               pv_total_weight := (pv_total_weight v + battery_weight package)%Q;
               pv_battery_types := pv_battery_types v ++ [battery_type package];
               pv_battery_weights :=
                 pv_battery_weights v ++ [battery_weight package];
               pv_battery_values :=
                 pv_battery_values v ++ [(base * quality_mult)%Q];
               pv_battery_qualities :=
                 pv_battery_qualities v ++ [quality package] |}
      end
  end.

(** The local variables of [quote] when line 314 has run. *)
Record quote_vars : Type := mkQuoteVars {
  base_shipping : Q;
  per_package : package_vars;
  weight_mult : Q;
  subtotal : Q;          (* [total_to_pay] after line 306 *)
  bonus_percent : Q;     (* [bonus] *)
  unfloored : Q;         (* [total_to_pay] after line 313 *)
  total_to_pay : Q       (* [total_to_pay] after line 314 *)
}.

(** Lines 267-314 of [quote]. *)
Definition quote_compute (self : PackagingSystem) (order : Order)
    : result quote_vars :=
  let distance_v := distance_to_ship order in
  let distance_mult := distance_loop distance_v (distance self) 1%Q in
  let base_shipping := (distance_v * distance_mult)%Q in
  v ← package_loop self (packages order)
        {| pv_total_to_pay := 0%Q; pv_total_weight := 0%Q;
           pv_battery_types := []; pv_battery_weights := [];
           pv_battery_values := []; pv_battery_qualities := [] |};
  let weight_mult := weight_loop (pv_total_weight v) (weights self) 1%Q in
  let total_to_pay := (pv_total_to_pay v - base_shipping * weight_mult)%Q in
  let bonus_v := bonus_loop (length (packages order)) (bonus self) 0%Q in
  let total_to_pay' := (total_to_pay + total_to_pay * (bonus_v / 100))%Q in
  mret {| base_shipping := base_shipping; per_package := v;
          weight_mult := weight_mult; subtotal := total_to_pay;
          bonus_percent := bonus_v; unfloored := total_to_pay';
          total_to_pay := py_round (py_max total_to_pay' [100%Q]) 2 |}.

(** Lines 316-337: the table built from the local variables. *)
Definition quote_table (q : quote_vars) : DataFrame :=
  let v := per_package q in
  let blanks := replicate (length (pv_battery_types v)) (CStr "") in
  let bonus_data := blanks ++ [CPercent (bonus_percent q)] in
  let shipping_data := blanks ++ [CNum (base_shipping q)] in
  let totals := blanks ++ [CNum (total_to_pay q)] in
  let battery_types := (CStr <$> pv_battery_types v) ++ [CStr ""] in
  let battery_weights :=
    CNum <$> (pv_battery_weights v ++ [py_sum (pv_battery_weights v)]) in
  let battery_qualities := (CNum <$> pv_battery_qualities v) ++ [CStr ""] in
  let battery_values :=
    CNum <$> (pv_battery_values v ++ [py_sum (pv_battery_values v)]) in
  {| index := ["Battery Type"; "Weight"; "Quality"; "Assessed Value";
               "Bonus"; "Shipping"; "Total"];
     data := [battery_types; battery_weights; battery_qualities;
              battery_values; bonus_data; shipping_data; totals] |}.

(** What [quote] hands back: [None], the cached [total_cost], or the table. *)
Inductive quote_value : Type :=
| QNone
| QFloat (t : Q)
| QDataFrame (d : DataFrame).

(** [PackagingSystem.quote(order_id)]: the outcome of the call and the
    packaging system afterwards. *)
Definition quote (self : PackagingSystem) (oid : Z)
    : result quote_value * PackagingSystem :=
  match orders self !! oid with
  | None => (Return QNone, self)
  | Some order =>
      match total_cost order with
      | Some t => (Return (QFloat t), self)
      | None =>
          match quote_compute self order with
          | Raise e => (Raise e, self)
          | Return q =>
              let d := quote_table q in
              let os := alter (set_total_cost (total_to_pay q)) oid (orders self) in
              let os := alter (set_df d) oid os in
              (Return (QDataFrame d), set_orders os self)
          end
      end
  end.

(** ** Vocabulary of the statements, and the systems they are run on *)

(** Some field of the location is [None]. *)
Definition has_null (l : LocationInformation) : bool :=
  match state l, city l, street_address l, zip_code l with
  | Some _, Some _, Some _, Some _ => false
  | _, _, _, _ => true
  end.

(** The orders a search by location [l] and optional date [dt] asks for. *)
Definition search_match (l : LocationInformation)
    (dt : option DateInformation) (o : Order) : bool :=
  LocationInformation_eq l (location o)
  && match dt with
     | Some d => DateInformation_eq d (date o)
     | None => true
     end.

(** [list(self.orders.values())] *)
Definition order_values (self : PackagingSystem) : list Order :=
  (map_to_list (orders self)).*2.

(** Two stored orders at one address, used to run the search. *)
Definition example_location : LocationInformation :=
  mkLocation (Some "Virginia") (Some "Virginia Beach")
    (Some "123 Example Street") (Some "12345").

Definition example_order (i : Z) (d : Z) : Order :=
  {| order_id := Some i; distance_to_ship := 0%Q;
     location := Some example_location;
     date := Some (mkDate (Some d) (Some 9%Z) (Some 2023%Z));
     packages := []; total_cost := None; accepted := PBool false;
     df := None |}.

Definition example_system : PackagingSystem :=
  {| qualities := []; weights := []; battery_base_value := ∅;
     distance := []; bonus := [];
     orders := <[1%Z := example_order 1 20]> (<[2%Z := example_order 2 21]> ∅) |}.

Definition empty_system : PackagingSystem :=
  {| qualities := []; weights := []; battery_base_value := ∅;
     distance := []; bonus := []; orders := ∅ |}.

Definition accepted_system : PackagingSystem :=
  quote_reply example_system 1 (PBool true).

(** The order as [quote] leaves it after pricing it. *)
Definition priced (q : quote_vars) (o : Order) : Order :=
  set_df (quote_table q) (set_total_cost (total_to_pay q) o).

(** Every call of [quote] ends in one of the four ways. *)
Inductive quote_outcome (self : PackagingSystem) (oid : Z)
    : result quote_value → PackagingSystem → Prop :=
| outcome_unknown :
    orders self !! oid = None →
    quote_outcome self oid (Return QNone) self
| outcome_cached o t :
    orders self !! oid = Some o → total_cost o = Some t →
    quote_outcome self oid (Return (QFloat t)) self
| outcome_raises o e :
    orders self !! oid = Some o → total_cost o = None →
    quote_compute self o = Raise e →
    quote_outcome self oid (Raise e) self
| outcome_fresh o q :
    orders self !! oid = Some o → total_cost o = None →
    quote_compute self o = Return q →
    quote_outcome self oid (Return (QDataFrame (quote_table q)))
      (set_orders (<[oid := priced q o]> (orders self)) self).

(** The packaging system with its rate tables replaced. *)
Definition set_rates (qs : list QualityTier) (ws : list WeightTier)
    (bv : gmap string Q) (ds : list DistanceTier) (bs : list BonusTier)
    (self : PackagingSystem) : PackagingSystem :=
  {| qualities := qs; weights := ws; battery_base_value := bv;
     distance := ds; bonus := bs; orders := orders self |}.

(** The scenario of the specification: one li-ion package of quality 75. *)
Definition scenario_order : Order :=
  {| order_id := Some 4%Z; distance_to_ship := 0%Q; location := None;
     date := None;
     packages := [mkPackage "li-ion" 1%Q 75%Q "end of life"];
     total_cost := None; accepted := PBool false; df := None |}.

Definition scenario_system : PackagingSystem :=
  {| qualities := [mkQualityTier 50%Q (1 # 2)%Q; mkQualityTier 100%Q 1%Q];
     weights := [mkWeightTier 999%Q 1%Q];
     battery_base_value := <["li-ion" := 10%Q]> ∅;
     distance := []; bonus := [];
     orders := <[4%Z := scenario_order]> ∅ |}.

(** The table the first call returns in the scenario. *)
Definition scenario_table : DataFrame :=
  {| index := ["Battery Type"; "Weight"; "Quality"; "Assessed Value";
               "Bonus"; "Shipping"; "Total"];
     data := [[CStr "li-ion"; CStr ""];
              [CNum 1%Q; CNum 1%Q];
              [CNum 75%Q; CStr ""];
              [CNum 10%Q; CNum 10%Q];
              [CStr ""; CPercent 0%Q];
              [CStr ""; CNum 0%Q];
              [CStr ""; CNum (10000 # 100)%Q]] |}.

Definition unknown_type_order : Order :=
  {| order_id := Some 7%Z; distance_to_ship := 12%Q; location := None;
     date := None;
     packages := [mkPackage "li-ion" 1%Q 75%Q "end of life";
                  mkPackage "nimh" 2%Q 40%Q "damaged"];
     total_cost := None; accepted := PBool false; df := None |}.

Definition unknown_type_system : PackagingSystem :=
  set_orders (<[7%Z := unknown_type_order]> (orders scenario_system))
    scenario_system.

(** The last, respectively first, element of a table that meets [P]. *)
Definition last_match {A} (P : A → bool) (l : list A) : option A :=
  last (List.filter P l).

Definition first_match {A} (P : A → bool) (l : list A) : option A :=
  head (List.filter P l).

(** The assessed value of a package: its base value times the multiplier
    the quality loop ends with. *)
Definition assessed (self : PackagingSystem) (p : BatteryPackage) (x : Q)
    : Prop :=
  ∃ b, battery_base_value self !! battery_type p = Some b
       ∧ x = (b * quality_loop p (qualities self) 0)%Q.

Definition empty_order : Order :=
  {| order_id := Some 9%Z; distance_to_ship := 10%Q; location := None;
     date := None; packages := []; total_cost := None;
     accepted := PBool false; df := None |}.

Definition half_weight_system : PackagingSystem :=
  {| qualities := []; weights := [mkWeightTier 10%Q (1 # 2)%Q];
     battery_base_value := ∅; distance := []; bonus := [];
     orders := <[9%Z := empty_order]> ∅ |}.

(** Overlapping tiers, every one of which admits the scenario's order. *)
Definition overlapping_system : PackagingSystem :=
  {| qualities := [mkQualityTier 80%Q 2%Q; mkQualityTier 100%Q 3%Q];
     weights := [mkWeightTier 5%Q 4%Q; mkWeightTier 50%Q 5%Q];
     battery_base_value := <["li-ion" := 10%Q]> ∅;
     distance := [mkDistanceTier 0%Q 6%Q; mkDistanceTier 0%Q 7%Q];
     bonus := [mkBonusTier 0%Q 8%Q; mkBonusTier 1%Q 9%Q];
     orders := <[4%Z := scenario_order]> ∅ |}.

(** ** The rest of the store: construction, loading, adding *)

(** [setattr(self, slot, v)] on the two value classes; a name that is not
    a slot is never passed (see [BaseData_from_dict]). *)
Definition LocationInformation_setattr (l : LocationInformation)
    (slot : string) (v : option string) : LocationInformation :=
  if String.eqb slot "state" then
    {| state := v; city := city l; street_address := street_address l;
       zip_code := zip_code l |}
  else if String.eqb slot "city" then
    {| state := state l; city := v; street_address := street_address l;
       zip_code := zip_code l |}
  else if String.eqb slot "street_address" then
    {| state := state l; city := city l; street_address := v;
       zip_code := zip_code l |}
  else if String.eqb slot "zip_code" then
    {| state := state l; city := city l; street_address := street_address l;
       zip_code := v |}
  else l.

Definition DateInformation_setattr (d : DateInformation)
    (slot : string) (v : option Z) : DateInformation :=
  if String.eqb slot "day" then
    {| day := v; month := month d; year := year d |}
  else if String.eqb slot "month" then
    {| day := day d; month := v; year := year d |}
  else if String.eqb slot "year" then
    {| day := day d; month := month d; year := v |}
  else d.

(** [BaseData.from_dict(data)].  [data] lists the members of the JSON
    object in document order, a [null] value being [None]; a repeated key
    is set again, which leaves the value [json.loads] keeps. *)
Definition BaseData_from_dict {T V} (slots : list string)
    (setattr : T → string → option V → T) (self : T)
    (data : list (string * option V)) : T :=
  fold_left
    (λ self kv,
       if existsb (String.eqb kv.1) slots then setattr self kv.1 kv.2
       else self)
    data self.

(** [LocationInformation()] and [DateInformation()]: no slot is set. *)
Definition LocationInformation_new : LocationInformation :=
  mkLocation None None None None.

Definition DateInformation_new : DateInformation := mkDate None None None.

Definition LocationInformation_from_dict :=
  BaseData_from_dict LocationInformation_slots LocationInformation_setattr.

Definition DateInformation_from_dict :=
  BaseData_from_dict DateInformation_slots DateInformation_setattr.

(** The JSON object of an order, key by key; [None] is an absent key.
    A present [order_id] can be [null] (the inner [None]); a package
    object carries its four fields. *)
Record order_json : Type := mkOrderJson {
  js_order_id : option (option Z);
  js_distance : option Q;
  js_location : option (list (string * option string));
  js_date : option (list (string * option Z));
  js_packages : option (list BatteryPackage)
}.

(** [Order.from_dict(data)] *)
Definition Order_from_dict (self : Order) (data : order_json) : Order :=
  {| order_id := match js_order_id data with
                 | Some i => i
                 | None => order_id self
                 end;
     distance_to_ship := match js_distance data with
                         | Some x => x
                         | None => distance_to_ship self
                         end;
     location := match js_location data with
                 | Some l =>
                     Some (LocationInformation_from_dict
                             LocationInformation_new l)
                 | None => location self
                 end;
     date := match js_date data with
             | Some d =>
                 Some (DateInformation_from_dict DateInformation_new d)
             | None => date self
             end;
     packages := match js_packages data with
                 | Some ps => packages self ++ ps
                 | None => packages self
                 end;
     total_cost := total_cost self;
     accepted := accepted self;
     df := df self |}.

(** The configuration object handed to [PackagingSystem.__init__], key by
    key.  Of [package_types] and [battery_packaging] only the presence
    matters. *)
Record config_json : Type := mkConfigJson {
  cj_qualities : option (list QualityTier);
  cj_package_types : option unit;
  cj_battery_packaging : option unit;
  cj_weights : option (list WeightTier);
  cj_battery_base_value : option (gmap string Q);
  cj_distance : option (list DistanceTier);
  cj_bonus : option (list BonusTier)
}.

(** One round of the loop of [__init__]: the key is there, or
    [KeyError(f"failed to find {key} in json configuration")]. *)
Definition required {A} (key : string) (v : option A) : result A :=
  match v with
  | Some a => Return a
  | None => Raise (KeyError ("failed to find " +:+ key
                             +:+ " in json configuration"))
  end.

(** [PackagingSystem.__init__(json_data)], the keys in the order of
    [_required_data]. *)
Definition PackagingSystem_init (json_data : config_json)
    : result PackagingSystem :=
  qs ← required "qualities" (cj_qualities json_data);
  _ ← required "package_types" (cj_package_types json_data);
  _ ← required "battery_packaging" (cj_battery_packaging json_data);
  ws ← required "weights" (cj_weights json_data);
  bv ← required "battery_base_value" (cj_battery_base_value json_data);
  ds ← required "distance" (cj_distance json_data);
  bs ← required "bonus" (cj_bonus json_data);
  mret {| qualities := qs; weights := ws; battery_base_value := bv;
          distance := ds; bonus := bs; orders := ∅ |}.

(** [PackagingSystem._add_simulated_data(json_data)]; the argument is the
    value of the key [orders], [None] when the key is absent. *)
Definition _add_simulated_data (self : PackagingSystem)
    (json_orders : option (list order_json)) : PackagingSystem :=
  match json_orders with
  | None => self
  | Some os =>
      fold_left
        (λ self order,
           let o := Order_from_dict Order_init order in
           match order_id o with
           | Some i => set_orders (<[i := o]> (orders self)) self
           | None => self
           end)
        os self
  end.

(** [PackagingSystem.add_order(order)].  The key is [order.order_id]; an
    order whose id is [None] would be stored under the key [None], which
    the integer-keyed store of this embedding cannot hold: no result. *)
Definition add_order (self : PackagingSystem) (order : Order)
    : option PackagingSystem :=
  match order_id order with
  | None => None
  | Some i =>
      match orders self !! i with
      | Some _ => Some self
      | None => Some (set_orders (<[i := order]> (orders self)) self)
      end
  end.

(** ** The quote endpoint *)

Record quote_request : Type := mkQuoteRequest {
  rq_is_json : bool;
  rq_order_id : option Z;      (* [None]: no key [order_id] *)
  rq_accept : option pyval     (* [None]: no key [accept] *)
}.

Inductive quote_response : Type :=
| QuoteDoc                               (* the docstring, status 200 *)
| QuoteFailed (oid : Z)                  (* "failed to create quote ...", 400 *)
| QuoteFile (oid : Z) (d : DataFrame)    (* the sheet of [d], as a download *)
| QuoteAnswer (m : message) (code : Z).

(** What leaves [handle_quote_request] as an exception: one raised by
    [quote], or the missing attribute of a [float]. *)
Inductive app_exn : Type :=
| Propagated (e : exn)
| AttributeError (attribute : string).

(** [handle_quote_request()].  Writing the table into the workbook and
    sending it is the work of the spreadsheet library: [QuoteFile]. *)
Definition handle_quote_request (psystem : PackagingSystem)
    (request : quote_request)
    : (app_exn + quote_response) * PackagingSystem :=
  if rq_is_json request then
    match rq_order_id request, rq_accept request with
    | Some oid, None =>
        match quote psystem oid with
        | (Raise e, psystem) => (inl (Propagated e), psystem)
        | (Return QNone, psystem) => (inr (QuoteFailed oid), psystem)
        | (Return (QFloat _), psystem) =>
            (inl (AttributeError "to_excel"), psystem)
        | (Return (QDataFrame d), psystem) => (inr (QuoteFile oid d), psystem)
        end
    | Some oid, Some answer =>
        let '((m, code), psystem) :=
          handle_quote_request_accept psystem oid answer in
        (inr (QuoteAnswer m code), psystem)
    | None, _ => (inr QuoteDoc, psystem)
    end
  else (inr QuoteDoc, psystem).

(** ** Chronological comparison of dates *)

Definition is_leap (y : Z) : bool :=
  (y mod 4 =? 0)%Z && (negb (y mod 100 =? 0)%Z || (y mod 400 =? 0)%Z).

Definition days_in_month (y m : Z) : Z :=
  if (m =? 2)%Z then (if is_leap y then 29 else 28)%Z
  else if (m =? 4)%Z || (m =? 6)%Z || (m =? 9)%Z || (m =? 11)%Z then 30%Z
  else 31%Z.

(** [datetime(year, month, day)]: the date at midnight, or [None] when the
    constructor raises, on a missing field or an impossible date. *)
Definition datetime (y m d : option Z) : option (Z * Z * Z) :=
  match y, m, d with
  | Some y, Some m, Some d =>
      if (1 <=? y)%Z && (y <=? 9999)%Z && (1 <=? m)%Z && (m <=? 12)%Z
         && (1 <=? d)%Z && (d <=? days_in_month y m)%Z
      then Some (y, m, d) else None
  | _, _, _ => None
  end.

(** [a >= b] on two such dates. *)
Definition datetime_ge (a b : Z * Z * Z) : bool :=
  let '(y1, m1, d1) := a in
  let '(y2, m2, d2) := b in
  (y2 <? y1)%Z
  || ((y1 =? y2)%Z && ((m2 <? m1)%Z || ((m1 =? m2)%Z && (d2 <=? d1)%Z))).

(** [DateInformation.__ge__]; [None] when the call raises. *)
Definition DateInformation_ge (self other : DateInformation) : option bool :=
  a ← datetime (year self) (month self) (day self);
  b ← datetime (year other) (month other) (day other);
  Some (datetime_ge a b).

(** ** Sequences of calls *)

Inductive call : Type :=
| CallQuote (oid : Z)
| CallQuoteReply (oid : Z) (answer : pyval)
| CallAddOrder (order : Order)
| CallRequest (request : quote_request).

(** The packaging system after a call; an exception leaves it as the call
    left it, and an [add_order] under the key [None] leaves every entry
    of the integer-keyed store as it was. *)
Definition after_call (self : PackagingSystem) (c : call) : PackagingSystem :=
  match c with
  | CallQuote oid => (quote self oid).2
  | CallQuoteReply oid answer => quote_reply self oid answer
  | CallAddOrder order => default self (add_order self order)
  | CallRequest request => (handle_quote_request self request).2
  end.

Definition after_calls (self : PackagingSystem) (cs : list call)
    : PackagingSystem :=
  fold_left after_call cs self.

(** An order as [Order()] and [from_dict] make it: nothing cached. *)
Definition unpriced (o : Order) : Prop :=
  total_cost o = None ∧ df o = None.


(** ** Vocabulary of the further statements *)

(** Some field of the date is [None]. *)
Definition date_has_null (d : DateInformation) : bool :=
  match day d, month d, year d with
  | Some _, Some _, Some _ => false
  | _, _, _ => true
  end.

(** The value of the last member of a JSON object with the key [k]. *)
Definition last_member {V} (k : string) (data : list (string * option V))
    : option (option V) :=
  snd <$> last_match (λ kv, String.eqb kv.1 k) data.

(** The required keys a configuration object lacks, in the order of
    [_required_data]. *)
Definition missing_keys (j : config_json) : list string :=
  (if cj_qualities j is Some _ then [] else ["qualities"])
  ++ (if cj_package_types j is Some _ then [] else ["package_types"])
  ++ (if cj_battery_packaging j is Some _ then [] else ["battery_packaging"])
  ++ (if cj_weights j is Some _ then [] else ["weights"])
  ++ (if cj_battery_base_value j is Some _ then [] else ["battery_base_value"])
  ++ (if cj_distance j is Some _ then [] else ["distance"])
  ++ (if cj_bonus j is Some _ then [] else ["bonus"]).

(** The id a JSON order is stored under by [_add_simulated_data]. *)
Definition json_id (r : order_json) : option Z :=
  match js_order_id r with
  | Some i => i
  | None => None
  end.

Definition has_json_id (i : Z) (r : order_json) : bool :=
  match json_id r with
  | Some j => (i =? j)%Z
  | None => false
  end.

(** The three fields make a date [datetime] accepts. *)
Definition valid_date (d : DateInformation) : Prop :=
  is_Some (datetime (year d) (month d) (day d)).

(** The battery type of the package has no base value. *)
Definition unknown_type (self : PackagingSystem) (p : BatteryPackage) : bool :=
  match battery_base_value self !! battery_type p with
  | Some _ => false
  | None => true
  end.


(** What a later state keeps of a stored order: everything but the
    [accepted] flag, and the cached quote once there is one. *)
Definition persists (o o' : Order) : Prop :=
  order_id o' = order_id o
  ∧ location o' = location o
  ∧ date o' = date o
  ∧ packages o' = packages o
  ∧ distance_to_ship o' = distance_to_ship o
  ∧ ∀ t, total_cost o = Some t → total_cost o' = Some t ∧ df o' = df o.

(** ** The info endpoint, up to its search *)

(** The JSON body of a request to the info endpoint: [json.get(key, None)]
    of each address and date key, and the key [order_id], which can be
    present with the value [null]. *)
Record info_request : Type := mkInfoRequest {
  ri_is_json : bool;
  ri_order_id : option (option Z);
  ri_day : option Z;
  ri_month : option Z;
  ri_year : option Z;
  ri_state : option string;
  ri_city : option string;
  ri_street_address : option string;
  ri_zip_code : option string
}.

Inductive info_search : Type :=
| InfoDoc            (* the docstring, status 400 *)
| InfoAddressError   (* "ERROR: please provide: ...", status 400 *)
| InfoOrders (found : option (list (option Order))).

(** [None in list(data.values())] *)
Definition None_in {V} (data : list (string * option V)) : bool :=
  existsb (λ kv, match kv.2 with None => true | Some _ => false end) data.

(** Lines 61-91 of [handle_info_request]: the reply it returns early, or
    the value of [orders] it goes on to serialise at line 93 (the
    serialisation itself is not part of this embedding). *)
Definition handle_info_request_orders (psystem : PackagingSystem)
    (request : info_request) (completed1 completed2 : list nat)
    : info_search :=
  if ri_is_json request then
    match ri_order_id request with
    | Some oid =>
        InfoOrders (find_orders psystem oid None None completed1 completed2)
    | None =>
        let date_data :=
          [("day", ri_day request); ("month", ri_month request);
           ("year", ri_year request)] in
        let date_arg :=
          if None_in date_data then None
          else Some (DateInformation_from_dict DateInformation_new date_data)
        in
        let lookup_info :=
          [("state", ri_state request); ("city", ri_city request);
           ("street_address", ri_street_address request);
           ("zip_code", ri_zip_code request)] in
        if None_in lookup_info then InfoAddressError
        else
          InfoOrders
            (find_orders psystem None
               (Some (LocationInformation_from_dict LocationInformation_new
                        lookup_info))
               date_arg completed1 completed2)
    end
  else InfoDoc.

(** The date an info request searches by: all three fields, or none. *)
Definition request_date (request : info_request) : option DateInformation :=
  match ri_day request, ri_month request, ri_year request with
  | Some d, Some m, Some y => Some (mkDate (Some d) (Some m) (Some y))
  | _, _, _ => None
  end.

(** Two packages that differ at most in the reason of the return. *)
Definition same_battery (p p' : BatteryPackage) : Prop :=
  battery_type p' = battery_type p
  ∧ battery_weight p' = battery_weight p
  ∧ quality p' = quality p.

(** * Properties *)

(** ** Equality of locations *)

Lemma str_ne_false (a b : string) : str_ne a b = false ↔ a = b.
Proof.
  unfold str_ne. rewrite negb_false_iff. apply String.eqb_eq.
Qed.

Lemma int_ne_false (a b : Z) : int_ne a b = false ↔ a = b.
Proof.
  unfold int_ne. rewrite negb_false_iff. apply Z.eqb_eq.
Qed.

Lemma LocationInformation_eq_true (l : LocationInformation)
    (other : option LocationInformation) :
  LocationInformation_eq l other = true ↔
  ∃ s c a z,
    l = mkLocation (Some s) (Some c) (Some a) (Some z) ∧ other = Some l.
Proof.
  split.
  - destruct l as [[s|] [c|] [a|] [z|]]; try discriminate;
      destruct other as [[[s'|] [c'|] [a'|] [z'|]]|]; try discriminate;
      try (cbn; repeat (case (str_ne _ _); try discriminate); discriminate).
    cbn. intros H.
    destruct (str_ne s s') eqn:Hs; [discriminate|].
    destruct (str_ne c c') eqn:Hc; [discriminate|].
    destruct (str_ne a a') eqn:Ha; [discriminate|].
    destruct (str_ne z z') eqn:Hz; [discriminate|].
    apply str_ne_false in Hs, Hc, Ha, Hz. subst.
    by exists s', c', a', z'.
  - intros (s & c & a & z & -> & ->). cbn.
    by rewrite !(proj2 (str_ne_false _ _) eq_refl).
Qed.

Lemma DateInformation_eq_true (d : DateInformation)
    (other : option DateInformation) :
  DateInformation_eq d other = true ↔
  ∃ dd mm yy, d = mkDate (Some dd) (Some mm) (Some yy) ∧ other = Some d.
Proof.
  split.
  - destruct d as [[dd|] [mm|] [yy|]]; try discriminate;
      destruct other as [[[dd'|] [mm'|] [yy'|]]|]; try discriminate;
      try (cbn; repeat (case (int_ne _ _); try discriminate); discriminate).
    cbn. intros H.
    destruct (int_ne dd dd') eqn:Hd; [discriminate|].
    destruct (int_ne mm mm') eqn:Hm; [discriminate|].
    destruct (int_ne yy yy') eqn:Hy; [discriminate|].
    apply int_ne_false in Hd, Hm, Hy. subst.
    by exists dd', mm', yy'.
  - intros (dd & mm & yy & -> & ->). cbn.
    by rewrite !(proj2 (int_ne_false _ _) eq_refl).
Qed.

(** C6. A location with a [None] field is unequal to every location,
    itself included; [L1 == L2] holds exactly when all four fields are
    present on both sides and are the same strings. *)
Theorem location_eq_null_field (L1 L2 : LocationInformation) :
  (has_null L1 = true →
     LocationInformation_eq L1 (Some L2) = false
     ∧ LocationInformation_eq L1 (Some L1) = false)
  ∧ (LocationInformation_eq L1 (Some L2) = true ↔
     ∃ s c a z, L1 = mkLocation (Some s) (Some c) (Some a) (Some z)
                ∧ L2 = mkLocation (Some s) (Some c) (Some a) (Some z)).
Proof.
  split.
  - intros Hnull.
    assert (∀ o, LocationInformation_eq L1 o = false) as Hall.
    { intros o. apply not_true_is_false.
      intros (s & c & a & z & -> & _)%LocationInformation_eq_true.
      discriminate Hnull. }
    by rewrite !Hall.
  - rewrite LocationInformation_eq_true. split.
    + intros (s & c & a & z & -> & [= ->]). by exists s, c, a, z.
    + intros (s & c & a & z & -> & ->). by exists s, c, a, z.
Qed.

Lemma location_eq_null_field_witness :
  let L := mkLocation (Some "Virginia") None (Some "123 Example Street")
             (Some "12345") in
  has_null L = true ∧ LocationInformation_eq L (Some L) = false.
Proof.
  split; [reflexivity|].
  apply (proj1 (location_eq_null_field
                  (mkLocation (Some "Virginia") None
                     (Some "123 Example Street") (Some "12345"))
                  (mkLocation None None None None))).
  reflexivity.
Defined.

(** ** Searching by location and date *)

Lemma elem_of_order_values (self : PackagingSystem) (o : Order) :
  o ∈ order_values self ↔ ∃ i, orders self !! i = Some o.
Proof.
  unfold order_values. rewrite list_elem_of_fmap. split.
  - intros ([i o'] & -> & Hin). exists i. by apply elem_of_map_to_list.
  - intros [i Hi]. exists (i, o). split; [done|]. by apply elem_of_map_to_list.
Qed.

Lemma omap_lookup_seq {A B} (g : A → option B) (pre lv : list A) :
  omap (λ i, y ← (pre ++ lv) !! i; g y) (seq (length pre) (length lv))
  = omap g lv.
Proof.
  revert pre. induction lv as [|a lv IH]; intros pre; [done|].
  specialize (IH (pre ++ [a])).
  rewrite length_app, Nat.add_1_r, <- app_assoc in IH.
  unfold omap in *. simpl in *.
  rewrite list_lookup_middle by done. simpl.
  by rewrite IH.
Qed.

Lemma find_inner_data_perm {T}
    (func : T → Order → (Order → option T) → option Order)
    (x : T) (lv : list Order) (var : Order → option T) (completed : list nat) :
  completion_order (length lv) completed →
  _find_inner_data func x lv var completed ≡ₚ omap (λ y, func x y var) lv.
Proof.
  unfold completion_order, _find_inner_data. intros ->.
  by rewrite <- (omap_lookup_seq (λ y, func x y var) [] lv).
Qed.

Lemma omap_simple_compare {T} (eq : T → option T → bool) (x : T)
    (var : Order → option T) (lv : list Order) :
  omap (λ y, _simple_compare eq x y var) lv
  = List.filter (λ y, eq x (var y)) lv.
Proof.
  induction lv as [|y lv IH]; [done|].
  cbn. unfold _simple_compare at 1. destruct (eq x (var y)); by rewrite IH.
Qed.

Lemma filter_filter_andb {A} (p q : A → bool) (l : list A) :
  List.filter q (List.filter p l) = List.filter (λ a, p a && q a) l.
Proof.
  induction l as [|a l IH]; [done|].
  cbn. destruct (p a); cbn; [destruct (q a)|]; by rewrite IH.
Qed.

Lemma find_orders_by_location (self : PackagingSystem)
    (l : LocationInformation) (dt : option DateInformation)
    (completed1 completed2 : list nat) :
  completion_order (length (order_values self)) completed1 →
  (is_Some dt →
   completion_order
     (length (List.filter (search_match l None) (order_values self)))
     completed2) →
  ∃ res,
    find_orders self None (Some l) dt completed1 completed2
      = Some (Some <$> res)
    ∧ res ≡ₚ List.filter (search_match l dt) (order_values self).
Proof.
  intros H1 H2. unfold find_orders. fold (order_values self).
  pose proof (find_inner_data_perm (_simple_compare LocationInformation_eq)
                l (order_values self) location completed1 H1) as P1.
  rewrite omap_simple_compare in P1.
  set (m1 := _find_inner_data _ l _ location completed1) in *.
  assert (List.filter (search_match l None) (order_values self)
          = List.filter (λ y, LocationInformation_eq l (location y))
              (order_values self)) as E1.
  { apply List.filter_ext. intros o. unfold search_match.
    by rewrite andb_true_r. }
  destruct dt as [d|].
  - destruct m1 as [|o m1'] eqn:Em1.
    + exists []. split; [done|].
      apply Permutation_nil in P1.
      assert (List.filter (search_match l (Some d)) (order_values self)
              = List.filter (λ y, DateInformation_eq d (date y))
                  (List.filter (λ y, LocationInformation_eq l (location y))
                     (order_values self))) as ->.
      { by rewrite filter_filter_andb. }
      by rewrite P1.
    + eexists. split; [reflexivity|].
      specialize (H2 (mk_is_Some _ _ eq_refl)).
      rewrite E1, <- P1 in H2.
      pose proof (find_inner_data_perm (_simple_compare DateInformation_eq)
                    d (o :: m1') date completed2 H2) as P2.
      rewrite P2, omap_simple_compare.
      assert (List.filter (search_match l (Some d)) (order_values self)
              = List.filter (λ y, DateInformation_eq d (date y))
                  (List.filter (λ y, LocationInformation_eq l (location y))
                     (order_values self))) as ->.
      { by rewrite filter_filter_andb. }
      rewrite <- (omap_simple_compare DateInformation_eq d date).
      rewrite <- (omap_simple_compare DateInformation_eq d date (List.filter _ _)).
      by rewrite P1.
  - exists m1. split; [by destruct m1|].
    by rewrite E1.
Qed.

Lemma elem_of_filter_search (self : PackagingSystem)
    (l : LocationInformation) (dt : option DateInformation) (o : Order) :
  o ∈ List.filter (search_match l dt) (order_values self) ↔
  (∃ i, orders self !! i = Some o)
  ∧ LocationInformation_eq l (location o) = true
  ∧ ∀ d, dt = Some d → DateInformation_eq d (date o) = true.
Proof.
  rewrite list_elem_of_In, filter_In, <- list_elem_of_In, elem_of_order_values.
  unfold search_match. rewrite andb_true_iff.
  destruct dt as [d|]; split.
  - intros (Hs & Hl & Hd). repeat split; [done..|]. by intros d' [= <-].
  - intros (Hs & Hl & Hd). repeat split; [done..|]. by apply Hd.
  - intros (Hs & Hl & _). repeat split; [done..|]. by intros d'.
  - by intros (Hs & Hl & _).
Qed.

(** C7. A search by location returns, in some order, exactly the stored
    orders whose location equals the given one; with a date, exactly those
    whose date equals the given date as well.  The order of the list is
    the completion order of the pool: two runs can return the same orders
    in different orders. *)
Theorem find_orders_location_date :
  (∀ (self : PackagingSystem) (l : LocationInformation)
     (dt : option DateInformation) (completed1 completed2 : list nat),
     completion_order (length (order_values self)) completed1 →
     (is_Some dt →
      completion_order
        (length (List.filter (search_match l None) (order_values self)))
        completed2) →
     ∃ res : list Order,
       find_orders self None (Some l) dt completed1 completed2
         = Some (Some <$> res)
       ∧ res ≡ₚ List.filter (search_match l dt) (order_values self)
       ∧ ∀ o, o ∈ res ↔
           (∃ i, orders self !! i = Some o)
           ∧ LocationInformation_eq l (location o) = true
           ∧ ∀ d, dt = Some d → DateInformation_eq d (date o) = true)
  ∧ (completion_order (length (order_values example_system)) [0; 1]
     ∧ completion_order (length (order_values example_system)) [1; 0]
     ∧ find_orders example_system None (Some example_location) None [0; 1] []
       ≠ find_orders example_system None (Some example_location) None [1; 0] []).
Proof.
  split.
  - intros self l dt c1 c2 H1 H2.
    destruct (find_orders_by_location self l dt c1 c2 H1 H2) as (res & E & P).
    exists res. split; [done|]. split; [done|].
    intros o. rewrite P. apply elem_of_filter_search.
  - split; [|split].
    + vm_compute. reflexivity.
    + vm_compute. apply perm_swap.
    + vm_compute. discriminate.
Qed.

Lemma find_orders_location_date_witness :
  ∃ res : list Order,
    find_orders example_system None (Some example_location)
      (Some (mkDate (Some 21%Z) (Some 9%Z) (Some 2023%Z))) [1; 0] [0; 1]
      = Some (Some <$> res)
    ∧ res ≡ₚ [example_order 2 21].
Proof.
  destruct (proj1 find_orders_location_date example_system example_location
              (Some (mkDate (Some 21%Z) (Some 9%Z) (Some 2023%Z)))
              [1; 0] [0; 1]) as (res & E & P & _).
  - vm_compute. apply perm_swap.
  - intros _. vm_compute. reflexivity.
  - exists res. split; [exact E|]. rewrite P. vm_compute. reflexivity.
Defined.

(** ** Lookup by id *)

(** C8, as the code has it.  A lookup by id never fails and returns a list
    of exactly one element, whatever the other arguments: the stored order
    when the id is known, and [None] as the single element when it is not.
    On an empty store the answer is the one-element list [[None]]. *)
Theorem find_orders_by_id (self : PackagingSystem) (i : Z)
    (loc : option LocationInformation) (dt : option DateInformation)
    (completed1 completed2 : list nat) :
  find_orders self (Some i) loc dt completed1 completed2
    = Some [orders self !! i]
  ∧ find_orders empty_system (Some i) loc dt completed1 completed2
    = Some [None].
Proof.
  split; [reflexivity|]. cbn. by rewrite lookup_empty.
Qed.

(** C8 as stated fails: for an unknown id the answer is neither absent nor
    empty, it is a list of length one. *)
Lemma find_orders_by_id_not_empty :
  let r := find_orders empty_system (Some 5%Z) None None [] [] in
  r ≠ None ∧ r ≠ Some [] ∧ r = Some [None] ∧ length <$> r = Some 1.
Proof.
  vm_compute. repeat split; discriminate.
Qed.

(** ** Acceptance *)

(** C5 as stated fails: a string sent as the answer is refused with status
    400, and the stored flag of the order, which was [True], becomes
    [False]. *)
Lemma non_boolean_answer_resets_flag :
  accepted <$> orders accepted_system !! 1%Z = Some (PBool true)
  ∧ let '((_, code), psystem) :=
      handle_quote_request_accept accepted_system 1 (PStr "sdfasdf") in
    code = 400%Z
    ∧ accepted <$> orders psystem !! 1%Z = Some (PBool false)
    ∧ accepted <$> orders psystem !! 1%Z
      ≠ accepted <$> orders accepted_system !! 1%Z.
Proof.
  vm_compute. repeat split; discriminate.
Qed.

Lemma quote_reply_lookup (self : PackagingSystem) (oid : Z) (answer : pyval)
    (o : Order) :
  orders self !! oid = Some o →
  orders (quote_reply self oid answer) !! oid = Some (set_accepted answer o).
Proof.
  intros H. unfold quote_reply. rewrite H. cbn. apply lookup_insert_eq.
Qed.

(** C5, as the code has it.  For a stored order, an answer that is not a
    boolean is refused with status 400 and the stored flag is set to
    [False]; accepting and then rejecting leaves the flag [False], and
    neither step changes anything else of the order. *)
Theorem acceptance_of_stored_order (psystem : PackagingSystem) (oid : Z)
    (o : Order) :
  orders psystem !! oid = Some o →
  (∀ answer, isinstance_bool answer = false →
     ∃ psystem',
       handle_quote_request_accept psystem oid answer
         = ((MsgNotBool, 400%Z), psystem')
       ∧ orders psystem' !! oid = Some (set_accepted (PBool false) o))
  ∧ orders (quote_reply (quote_reply psystem oid (PBool true))
               oid (PBool false)) !! oid
    = Some (set_accepted (PBool false) o)
  ∧ orders (snd (handle_quote_request_accept
                   (snd (handle_quote_request_accept psystem oid (PBool true)))
                   oid (PBool false))) !! oid
    = Some (set_accepted (PBool false) o).
Proof.
  intros Ho. split; [|split].
  - intros answer Hb. eexists. split.
    + unfold handle_quote_request_accept. rewrite Hb. reflexivity.
    + by apply quote_reply_lookup.
  - by rewrite (quote_reply_lookup _ _ _ (set_accepted (PBool true) o))
      by (by apply quote_reply_lookup).
  - cbn.
    by rewrite (quote_reply_lookup _ _ _ (set_accepted (PBool true) o))
      by (by apply quote_reply_lookup).
Qed.

Lemma acceptance_of_stored_order_witness :
  orders (quote_reply (quote_reply accepted_system 1 (PBool true))
            1 (PBool false)) !! 1%Z
  = Some (set_accepted (PBool false) (set_accepted (PBool true) (example_order 1 20))).
Proof.
  apply (acceptance_of_stored_order accepted_system 1
           (set_accepted (PBool true) (example_order 1 20))).
  vm_compute. reflexivity.
Defined.

(** ** The four ways a call of [quote] ends *)

Lemma quote_unknown (self : PackagingSystem) (oid : Z) :
  orders self !! oid = None → quote self oid = (Return QNone, self).
Proof. intros H. unfold quote. by rewrite H. Qed.

Lemma quote_cached (self : PackagingSystem) (oid : Z) (o : Order) (t : Q) :
  orders self !! oid = Some o → total_cost o = Some t →
  quote self oid = (Return (QFloat t), self).
Proof. intros H Ht. unfold quote. by rewrite H, Ht. Qed.

Lemma quote_raises (self : PackagingSystem) (oid : Z) (o : Order) (e : exn) :
  orders self !! oid = Some o → total_cost o = None →
  quote_compute self o = Raise e →
  quote self oid = (Raise e, self).
Proof. intros H Ht Hq. unfold quote. by rewrite H, Ht, Hq. Qed.

Lemma quote_fresh (self : PackagingSystem) (oid : Z) (o : Order)
    (q : quote_vars) :
  orders self !! oid = Some o → total_cost o = None →
  quote_compute self o = Return q →
  quote self oid
  = (Return (QDataFrame (quote_table q)),
     set_orders (<[oid := priced q o]> (orders self)) self).
Proof.
  intros H Ht Hq. unfold quote. rewrite H, Ht, Hq. do 2 f_equal.
  apply map_eq. intros j. destruct (decide (oid = j)) as [<-|Hne].
  - by rewrite !lookup_alter_eq, H, lookup_insert_eq.
  - by rewrite !lookup_alter_ne, lookup_insert_ne.
Qed.

Lemma quote_cases (self : PackagingSystem) (oid : Z) :
  quote_outcome self oid (quote self oid).1 (quote self oid).2.
Proof.
  destruct (orders self !! oid) as [o|] eqn:Ho.
  - destruct (total_cost o) as [t|] eqn:Ht.
    + rewrite (quote_cached _ _ _ _ Ho Ht). by eapply outcome_cached.
    + destruct (quote_compute self o) as [q|e] eqn:Hq.
      * rewrite (quote_fresh _ _ _ _ Ho Ht Hq). by apply outcome_fresh.
      * rewrite (quote_raises _ _ _ _ Ho Ht Hq). by eapply outcome_raises.
  - rewrite (quote_unknown _ _ Ho). by apply outcome_unknown.
Qed.

(** ** What a call of [quote] leaves alone *)

(** C10. A call of [quote] leaves the rate tables, every other order and
    the set of stored ids as they were; of the quoted order only
    [total_cost] and [df] can differ afterwards. *)
Theorem quote_frame (self : PackagingSystem) (oid : Z) :
  let self' := (quote self oid).2 in
  qualities self' = qualities self
  ∧ weights self' = weights self
  ∧ battery_base_value self' = battery_base_value self
  ∧ distance self' = distance self
  ∧ bonus self' = bonus self
  ∧ (∀ j, j ≠ oid → orders self' !! j = orders self !! j)
  ∧ (orders self !! oid = None → orders self' !! oid = None)
  ∧ (∀ o, orders self !! oid = Some o →
       ∃ o', orders self' !! oid = Some o'
         ∧ order_id o' = order_id o
         ∧ location o' = location o
         ∧ date o' = date o
         ∧ packages o' = packages o
         ∧ distance_to_ship o' = distance_to_ship o
         ∧ accepted o' = accepted o).
Proof.
  cbv zeta. destruct (quote_cases self oid) as [Ho|o t Ho Ht|o e Ho Ht Hq|o q Ho Ht Hq].
  1-3: repeat split; try done; intros o' Ho'; exists o'; by repeat split.
  repeat split; try done; cbn.
  - intros j Hj. by rewrite lookup_insert_ne.
  - by rewrite Ho.
  - intros o' Ho'. rewrite Ho in Ho'. injection Ho' as <-.
    exists (priced q o). by rewrite lookup_insert_eq.
Qed.

(** ** Asking for the same quote again *)

(** C1, what the code does.  When a first call of [quote] has priced an
    order and returned its table [d], every later call for that id returns
    the bare cached total [t] instead of the table, so the two results
    differ; the later call reads no rate table and changes nothing. *)
Theorem quote_again_returns_total (self self' : PackagingSystem) (oid : Z)
    (d : DataFrame) :
  quote self oid = (Return (QDataFrame d), self') →
  ∃ (o : Order) (q : quote_vars),
    orders self !! oid = Some o
    ∧ quote_compute self o = Return q
    ∧ d = quote_table q
    ∧ orders self' !! oid = Some (priced q o)
    ∧ (∀ qs ws bv ds bs,
         quote (set_rates qs ws bv ds bs self') oid
         = (Return (QFloat (total_to_pay q)), set_rates qs ws bv ds bs self'))
    ∧ quote self' oid = (Return (QFloat (total_to_pay q)), self')
    ∧ (quote self' oid).1 ≠ (quote self oid).1.
Proof.
  intros H.
  pose proof (quote_cases self oid) as Hc. rewrite H in Hc. cbn in Hc.
  inversion Hc as [| | |o q Ho Ht Hq Hd Hs]; subst.
  assert (orders (set_orders (<[oid:=priced q o]> (orders self)) self) !! oid
          = Some (priced q o)) as Hl by apply lookup_insert_eq.
  exists o, q. repeat split; try done.
  - intros qs ws bv ds bs. by apply (quote_cached _ _ (priced q o)).
  - by apply (quote_cached _ _ (priced q o)).
  - rewrite H, (quote_cached _ _ (priced q o) (total_to_pay q)) by done.
    discriminate.
Qed.

Lemma quote_again_returns_total_witness :
  (quote scenario_system 4).1 = Return (QDataFrame scenario_table)
  ∧ (quote (quote scenario_system 4).2 4).1 ≠ (quote scenario_system 4).1.
Proof.
  split; [vm_compute; reflexivity|].
  destruct (quote_again_returns_total scenario_system
              (quote scenario_system 4).2 4 scenario_table)
    as (o & q & _ & _ & _ & _ & _ & _ & Hne).
  - vm_compute. reflexivity.
  - exact Hne.
Defined.

(** ** A battery type without a base value *)

Lemma package_loop_raises (self : PackagingSystem) (ps : list BatteryPackage)
    (v : package_vars) :
  Exists (λ p, battery_base_value self !! battery_type p = None) ps →
  ∃ p, p ∈ ps
    ∧ battery_base_value self !! battery_type p = None
    ∧ package_loop self ps v = Raise (KeyError (battery_type p)).
Proof.
  revert v. induction ps as [|p ps IH]; intros v Hex.
  - by apply Exists_nil in Hex.
  - cbn. destruct (battery_base_value self !! battery_type p) as [b|] eqn:Hb.
    + apply Exists_cons in Hex as [Hex|Hex]; [congruence|].
      edestruct IH as (p' & Hin & Hnone & Hloop); [exact Hex|].
      exists p'. split; [by right|]. split; [done|]. exact Hloop.
    + exists p. split; [by left|]. done.
Qed.

Lemma package_loop_returns (self : PackagingSystem) (ps : list BatteryPackage)
    (v : package_vars) :
  Forall (λ p, is_Some (battery_base_value self !! battery_type p)) ps →
  ∃ v', package_loop self ps v = Return v'.
Proof.
  revert v. induction ps as [|p ps IH]; intros v Hall; [by eexists|].
  apply Forall_cons in Hall as [[b Hb] Hall]. cbn. rewrite Hb. by apply IH.
Qed.

(** C2 as stated fails: the call for an order with a package of unknown
    battery type ends in an uncaught [KeyError], it does not return an
    absent quote. *)
Lemma quote_unknown_battery_type_raises :
  battery_base_value unknown_type_system !! "nimh" = None
  ∧ (quote unknown_type_system 7).1 = Raise (KeyError "nimh")
  ∧ (quote unknown_type_system 7).1 ≠ Return QNone.
Proof.
  vm_compute. repeat split; discriminate.
Qed.

(** C2, as the code has it.  For a stored order that has no cached quote
    and contains a package whose battery type has no base value, [quote]
    raises [KeyError] for such a type and returns nothing; the packaging
    system, that order included, is left exactly as it was. *)
Theorem quote_unknown_battery_type (self : PackagingSystem) (oid : Z)
    (o : Order) :
  orders self !! oid = Some o →
  total_cost o = None →
  Exists (λ p, battery_base_value self !! battery_type p = None) (packages o) →
  ∃ p, p ∈ packages o
    ∧ battery_base_value self !! battery_type p = None
    ∧ quote self oid = (Raise (KeyError (battery_type p)), self).
Proof.
  intros Ho Ht Hex.
  destruct (package_loop_raises self (packages o)
              (mkPackageVars 0%Q 0%Q [] [] [] []) Hex) as (p & Hin & Hn & Hl).
  exists p. split; [done|]. split; [done|].
  apply (quote_raises _ _ o); [done..|].
  unfold quote_compute. by rewrite Hl.
Qed.

Lemma quote_unknown_battery_type_witness :
  ∃ p, p ∈ packages unknown_type_order
    ∧ battery_base_value unknown_type_system !! battery_type p = None
    ∧ quote unknown_type_system 7
      = (Raise (KeyError (battery_type p)), unknown_type_system).
Proof.
  apply (quote_unknown_battery_type unknown_type_system 7 unknown_type_order).
  - vm_compute. reflexivity.
  - reflexivity.
  - apply Exists_cons_tl, Exists_cons_hd. vm_compute. reflexivity.
Defined.

(** ** Arithmetic of the price floor *)









(** ** Tier lookups *)

Lemma last_match_Some {A} (P : A → bool) (l : list A) (t : A) :
  last_match P l = Some t ↔
  ∃ l1 l2, l = l1 ++ t :: l2 ∧ P t = true ∧ Forall (λ x, P x = false) l2.
Proof.
  unfold last_match. induction l as [|a l IH] using rev_ind.
  - split; [done|]. intros (l1 & l2 & E & _). by destruct l1.
  - rewrite List.filter_app. cbn. destruct (P a) eqn:Pa.
    + rewrite last_snoc. split.
      * intros [= <-]. by exists l, [].
      * intros (l1 & l2 & E & Pt & Hall).
        destruct l2 as [|b l2 _] using rev_ind.
        -- apply app_inj_tail in E as [_ ->]. done.
        -- rewrite app_comm_cons, app_assoc in E.
           apply app_inj_tail in E as [_ ->].
           apply Forall_app in Hall as [_ Hb].
           apply (proj1 (Forall_singleton _ _)) in Hb. cbn in Hb. congruence.
    + rewrite app_nil_r, IH. split.
      * intros (l1 & l2 & -> & Pt & Hall). exists l1, (l2 ++ [a]).
        rewrite <- app_assoc. split; [done|]. split; [done|].
        apply Forall_app. split; [done|]. by apply Forall_singleton.
      * intros (l1 & l2 & E & Pt & Hall).
        destruct l2 as [|b l2 _] using rev_ind.
        -- apply app_inj_tail in E as [_ ->]. congruence.
        -- rewrite app_comm_cons, app_assoc in E.
           apply app_inj_tail in E as [-> ->].
           apply Forall_app in Hall as [Hall _]. by exists l1, l2.
Qed.

Lemma first_match_Some {A} (P : A → bool) (l : list A) (t : A) :
  first_match P l = Some t ↔
  ∃ l1 l2, l = l1 ++ t :: l2 ∧ P t = true ∧ Forall (λ x, P x = false) l1.
Proof.
  unfold first_match. induction l as [|a l IH].
  - split; [done|]. intros (l1 & l2 & E & _). by destruct l1.
  - cbn. destruct (P a) eqn:Pa.
    + cbn. split.
      * intros [= <-]. by exists [], l.
      * intros (l1 & l2 & E & Pt & Hall). destruct l1 as [|b l1].
        -- by injection E as -> _.
        -- injection E as <- _. apply Forall_cons in Hall as [Hb _].
           cbn in Hb. congruence.
    + rewrite IH. split.
      * intros (l1 & l2 & -> & Pt & Hall). exists (a :: l1), l2.
        split; [done|]. split; [done|]. by apply Forall_cons.
      * intros (l1 & l2 & E & Pt & Hall). destruct l1 as [|b l1].
        -- injection E as -> _. congruence.
        -- injection E as <- ->. apply Forall_cons in Hall as [_ Hall].
           by exists l1, l2.
Qed.

Lemma match_None {A} (P : A → bool) (l : list A) :
  (last_match P l = None ↔ Forall (λ x, P x = false) l)
  ∧ (first_match P l = None ↔ Forall (λ x, P x = false) l).
Proof.
  unfold last_match, first_match. rewrite last_None, head_None.
  assert (List.filter P l = [] ↔ Forall (λ x, P x = false) l) as H; [|done].
  induction l as [|a l IH]; cbn.
  - split; [by constructor|done].
  - destruct (P a) eqn:Pa.
    + split; [done|]. intros [Ha _]%Forall_cons. cbn in Ha. congruence.
    + rewrite IH. split; [by constructor|]. by intros [_ ?]%Forall_cons.
Qed.

Lemma fold_left_last_match {A} (P : A → bool) (f : A → Q) (l : list A)
    (d : Q) :
  fold_left (λ acc t, if P t then f t else acc) l d
  = from_option f d (last_match P l).
Proof.
  unfold last_match. revert d. induction l as [|a l IH]; intros d; [done|].
  cbn. rewrite IH. destruct (P a); [|done].
  by destruct (List.filter P l) as [|b l'] using rev_ind;
    [|rewrite app_comm_cons, !last_snoc].
Qed.

Lemma weight_loop_first_match (total_weight : Q) (tiers : list WeightTier)
    (d : Q) :
  weight_loop total_weight tiers d
  = from_option weight_multiplier d
      (first_match (λ w, Qle_bool total_weight (max_weight w)) tiers).
Proof.
  unfold first_match. induction tiers as [|w tiers IH]; [done|].
  cbn. by destruct (Qle_bool total_weight (max_weight w)).
Qed.

(** ** What the package loop accumulates *)

Lemma package_loop_spec (self : PackagingSystem) (ps : list BatteryPackage)
    (v v' : package_vars) :
  package_loop self ps v = Return v' →
  ∃ vals,
    Forall2 (assessed self) ps vals
    ∧ pv_total_to_pay v' = fold_left Qplus vals (pv_total_to_pay v)
    ∧ pv_total_weight v'
      = fold_left Qplus (battery_weight <$> ps) (pv_total_weight v)
    ∧ pv_battery_types v' = pv_battery_types v ++ (battery_type <$> ps)
    ∧ pv_battery_weights v' = pv_battery_weights v ++ (battery_weight <$> ps)
    ∧ pv_battery_values v' = pv_battery_values v ++ vals
    ∧ pv_battery_qualities v' = pv_battery_qualities v ++ (quality <$> ps).
Proof.
  revert v. induction ps as [|p ps IH]; intros v H.
  - injection H as <-. exists []. rewrite !app_nil_r. by repeat split.
  - cbn in H.
    destruct (battery_base_value self !! battery_type p) as [b|] eqn:Hb;
      [|discriminate].
    apply IH in H as (vals & HF & H1 & H2 & H3 & H4 & H5 & H6). cbn in *.
    exists ((b * quality_loop p (qualities self) 0)%Q :: vals).
    rewrite H1, H2, H3, H4, H5, H6, <- !app_assoc.
    repeat split; try done.
    constructor; [|done]. by exists b.
Qed.

(** The local variables of a successful [quote_compute], read off the
    order and the tables. *)
Lemma quote_compute_spec (self : PackagingSystem) (o : Order) (q : quote_vars) :
  quote_compute self o = Return q →
  base_shipping q
    = (distance_to_ship o
       * distance_loop (distance_to_ship o) (distance self) 1)%Q
  ∧ package_loop self (packages o) (mkPackageVars 0%Q 0%Q [] [] [] [])
    = Return (per_package q)
  ∧ weight_mult q
    = weight_loop (pv_total_weight (per_package q)) (weights self) 1%Q
  ∧ subtotal q
    = (pv_total_to_pay (per_package q) - base_shipping q * weight_mult q)%Q
  ∧ bonus_percent q = bonus_loop (length (packages o)) (bonus self) 0%Q
  ∧ unfloored q = (subtotal q + subtotal q * (bonus_percent q / 100))%Q
  ∧ total_to_pay q = py_round (py_max (unfloored q) [100%Q]) 2.
Proof.
  unfold quote_compute. intros H.
  destruct (package_loop self (packages o) _) as [v|e]; [|discriminate].
  cbn in H. injection H as <-. by repeat split.
Qed.

(** ** The price floor *)



(** ** Which tier a lookup takes *)

(** C4 as stated fails in its last clause: for an order without packages
    the weight multiplier is not the default 1.0 but the multiplier of the
    first tier that admits the weight 0. *)
Lemma empty_order_weight_multiplier :
  packages empty_order = []
  ∧ ∃ q, quote_compute half_weight_system empty_order = Return q
         ∧ weight_mult q = (1 # 2)%Q
         ∧ ¬ (weight_mult q == 1)%Q.
Proof.
  split; [reflexivity|]. eexists. split; [vm_compute; reflexivity|].
  split; [reflexivity|]. discriminate.
Qed.

(** C4, as the code has it.  In a computed quote the distance multiplier
    is that of the last distance tier with [min_distance <= distance]
    (default 1), the quality multiplier of a package that of the last
    quality tier with [quality <= max_percent] (default 0), the bonus that
    of the last bonus tier with [min_packages <= number of packages]
    (default 0), and the weight multiplier that of the first weight tier
    with [total weight <= max_weight] (default 1.0 when no tier matches),
    the total weight being the sum of the package weights, 0 for an order
    without packages. *)
Theorem tier_match_directions (self : PackagingSystem) (o : Order)
    (q : quote_vars) :
  quote_compute self o = Return q →
  base_shipping q
    = (distance_to_ship o
       * from_option distance_multiplier 1
           (last_match (λ d, Qle_bool (min_distance d) (distance_to_ship o))
              (distance self)))%Q
  ∧ Forall2
      (λ p x, ∃ b, battery_base_value self !! battery_type p = Some b
         ∧ x = (b * from_option quality_multiplier 0
                      (last_match (λ t, Qle_bool (quality p) (max_percent t))
                         (qualities self)))%Q)
      (packages o) (pv_battery_values (per_package q))
  ∧ bonus_percent q
    = from_option percent 0%Q
        (last_match
           (λ b, Qle_bool (min_packages b)
                   (inject_Z (Z.of_nat (length (packages o)))))
           (bonus self))
  ∧ pv_total_weight (per_package q)
    = fold_left Qplus (battery_weight <$> packages o) 0%Q
  ∧ weight_mult q
    = from_option weight_multiplier 1%Q
        (first_match
           (λ w, Qle_bool (pv_total_weight (per_package q)) (max_weight w))
           (weights self)).
Proof.
  intros Hq.
  pose proof (quote_compute_spec _ _ _ Hq) as (Hb & Hl & Hw & _ & Hbo & _ & _).
  apply package_loop_spec in Hl as (vals & HF & _ & Htw & _ & _ & Hv & _).
  cbn in Htw, Hv. subst vals.
  split; [|split; [|split; [|split]]].
  - rewrite Hb. unfold distance_loop. by rewrite fold_left_last_match.
  - eapply Forall2_impl; [exact HF|]. intros p x (b & Hbv & ->). exists b.
    split; [done|]. unfold quality_loop. by rewrite fold_left_last_match.
  - rewrite Hbo. unfold bonus_loop. by rewrite fold_left_last_match.
  - done.
  - rewrite Hw. apply weight_loop_first_match.
Qed.

Lemma tier_match_directions_witness :
  ∃ q, quote_compute overlapping_system scenario_order = Return q
       ∧ pv_battery_values (per_package q) = [(10 * 3)%Q]
       ∧ bonus_percent q = 9%Q
       ∧ weight_mult q = 4%Q
       ∧ weight_mult q
         = from_option weight_multiplier 1%Q
             (first_match
                (λ w, Qle_bool (pv_total_weight (per_package q)) (max_weight w))
                (weights overlapping_system)).
Proof.
  eexists. split; [vm_compute; reflexivity|].
  split; [reflexivity|]. split; [reflexivity|]. split; [reflexivity|].
  eapply (tier_match_directions overlapping_system scenario_order).
  vm_compute. reflexivity.
Defined.

(** ** An order without packages *)





(** * Further properties of the code *)

Lemma location_eq_null_field_alt (L1 L2 : LocationInformation) :
  (has_null L1 = true → LocationInformation_eq L1 (Some L2) = false)
  ∧ (has_null L2 = true → LocationInformation_eq L1 (Some L2) = false).
Proof.
  split; intros Hnull; apply not_true_is_false;
    intros (s & c & a & z & -> & [= ->])%LocationInformation_eq_true;
    discriminate Hnull.
Qed.


(** ** Equality is a partial equivalence *)

(** X1. Equality of locations is symmetric and transitive, a location is
    equal to itself exactly when none of its fields is [None], nothing is
    equal to a missing location, and [!=] is the negation of [==]. *)
Theorem location_eq_partial_equivalence (a b c : LocationInformation) :
  LocationInformation_eq a (Some b) = LocationInformation_eq b (Some a)
  ∧ (LocationInformation_eq a (Some b) = true →
     LocationInformation_eq b (Some c) = true →
     LocationInformation_eq a (Some c) = true)
  ∧ LocationInformation_eq a (Some a) = negb (has_null a)
  ∧ LocationInformation_eq a None = false
  ∧ BaseData_ne str_ne LocationInformation_slots
      (LocationInformation_getattr a) (LocationInformation_getattr b)
    = negb (LocationInformation_eq a (Some b)).
Proof.
  split; [|split; [|split; [|split]]].
  - destruct (LocationInformation_eq a (Some b)) eqn:E1.
    + apply LocationInformation_eq_true in E1
        as (s & ci & st & z & -> & [= ->]).
      symmetry. apply LocationInformation_eq_true. by exists s, ci, st, z.
    + symmetry. apply not_true_is_false. intros E2.
      apply LocationInformation_eq_true in E2
        as (s & ci & st & z & -> & [= ->]).
      rewrite (proj2 (LocationInformation_eq_true _ _)) in E1; [done|].
      by exists s, ci, st, z.
  - intros (s & ci & st & z & -> & [= ->])%LocationInformation_eq_true.
    done.
  - destruct (has_null a) eqn:Hn; cbn [negb].
    + by apply (proj1 (location_eq_null_field_alt a a)).
    + apply LocationInformation_eq_true.
      destruct a as [[s|] [ci|] [st|] [z|]]; try discriminate.
      by exists s, ci, st, z.
  - apply not_true_is_false.
    by intros (s & ci & st & z & _ & ?)%LocationInformation_eq_true.
  - reflexivity.
Qed.

(** ** Dates *)

Lemma datetime_ge_spec (y1 m1 d1 y2 m2 d2 : Z) :
  datetime_ge (y1, m1, d1) (y2, m2, d2) = true ↔
  (y2 < y1 ∨ (y1 = y2 ∧ (m2 < m1 ∨ (m1 = m2 ∧ d2 ≤ d1))))%Z.
Proof.
  unfold datetime_ge.
  rewrite orb_true_iff, andb_true_iff, orb_true_iff, andb_true_iff.
  rewrite !Z.ltb_lt, !Z.eqb_eq, Z.leb_le. tauto.
Qed.

Lemma valid_date_inv (d : DateInformation) :
  valid_date d →
  ∃ y m dd, d = mkDate (Some dd) (Some m) (Some y)
            ∧ datetime (year d) (month d) (day d) = Some (y, m, dd).
Proof.
  destruct d as [[dd|] [m|] [y|]]; intros [t Ht]; try discriminate.
  exists y, m, dd. split; [done|]. cbn in *.
  by destruct (_ && _).
Qed.

Lemma DateInformation_ge_valid (a b : DateInformation)
    (y1 m1 d1 y2 m2 d2 : Z) :
  datetime (year a) (month a) (day a) = Some (y1, m1, d1) →
  datetime (year b) (month b) (day b) = Some (y2, m2, d2) →
  DateInformation_ge a b = Some (datetime_ge (y1, m1, d1) (y2, m2, d2)).
Proof. intros Ha Hb. unfold DateInformation_ge. by rewrite Ha, Hb. Qed.

(** X2. On dates that exist in the calendar [>=] is the chronological
    order: reflexive, total and transitive, and two dates are each [>=]
    the other exactly when they are [==].  When either date lacks a field
    or is impossible, the comparison raises instead of answering. *)
Theorem date_ge_chronological (a b c : DateInformation) :
  (valid_date a → valid_date b → valid_date c →
     DateInformation_ge a a = Some true
     ∧ (DateInformation_ge a b = Some true
        ∨ DateInformation_ge b a = Some true)
     ∧ (DateInformation_ge a b = Some true →
        DateInformation_ge b c = Some true →
        DateInformation_ge a c = Some true)
     ∧ (DateInformation_ge a b = Some true
        ∧ DateInformation_ge b a = Some true
        ↔ DateInformation_eq a (Some b) = true))
  ∧ (¬ valid_date a →
     DateInformation_ge a b = None ∧ DateInformation_ge b a = None)
  ∧ (date_has_null a = true → ¬ valid_date a)
  ∧ (∀ m, month a = Some m → (m < 1 ∨ 12 < m)%Z → ¬ valid_date a)
  ∧ (∀ d, day a = Some d → (d < 1 ∨ 31 < d)%Z → ¬ valid_date a).
Proof.
  split; [|split; [|split; [|split]]].
  - intros (y1 & m1 & d1 & -> & Ha)%valid_date_inv
           (y2 & m2 & d2 & -> & Hb)%valid_date_inv
           (y3 & m3 & d3 & -> & Hc)%valid_date_inv.
    rewrite (DateInformation_ge_valid _ _ _ _ _ _ _ _ Ha Ha),
      (DateInformation_ge_valid _ _ _ _ _ _ _ _ Ha Hb),
      (DateInformation_ge_valid _ _ _ _ _ _ _ _ Hb Ha),
      (DateInformation_ge_valid _ _ _ _ _ _ _ _ Hb Hc),
      (DateInformation_ge_valid _ _ _ _ _ _ _ _ Ha Hc).
    assert (∀ x y : bool, Some x = Some y ↔ x = y) as HS
      by (intros x y; split; [by intros [= ->]|by intros ->]).
    rewrite !HS, !datetime_ge_spec.
    split; [lia|]. split; [lia|]. split; [lia|].
    rewrite DateInformation_eq_true. split.
    + intros [H1 H2]. exists d1, m1, y1. split; [done|].
      do 2 f_equal; f_equal; lia.
    + intros (dd & mm & yy & [= -> -> ->] & [= -> -> ->]). lia.
  - intros Hv. unfold valid_date in Hv. unfold DateInformation_ge.
    destruct (datetime (year a) (month a) (day a)) as [t|] eqn:E.
    + destruct Hv. by eexists.
    + split; [done|]. by destruct (datetime (year b) (month b) (day b)).
  - intros Hn (y & m & d & -> & _)%valid_date_inv. discriminate.
  - intros m Hm Hr (y & m' & d & -> & Hd)%valid_date_inv.
    injection Hm as ->. cbn in Hd.
    destruct (_ && _) eqn:E in Hd; [|discriminate].
    rewrite !andb_true_iff, !Z.leb_le in E. lia.
  - intros d Hd Hr (y & m & d' & -> & Hdt)%valid_date_inv.
    injection Hd as ->. cbn in Hdt.
    destruct (_ && _) eqn:E in Hdt; [|discriminate].
    rewrite !andb_true_iff, !Z.leb_le in E.
    assert (days_in_month y m ≤ 31)%Z.
    { unfold days_in_month. repeat case_match; lia. }
    lia.
Qed.

Lemma date_ge_chronological_witness :
  let a := mkDate (Some 29%Z) (Some 2%Z) (Some 2024%Z) in
  let b := mkDate (Some 31%Z) (Some 10%Z) (Some 2023%Z) in
  DateInformation_ge a b = Some true ∨ DateInformation_ge b a = Some true.
Proof.
  apply (proj1 (date_ge_chronological
                  (mkDate (Some 29%Z) (Some 2%Z) (Some 2024%Z))
                  (mkDate (Some 31%Z) (Some 10%Z) (Some 2023%Z))
                  (mkDate (Some 31%Z) (Some 10%Z) (Some 2023%Z))));
    by eexists.
Defined.

(** ** Reading value objects from JSON *)

Lemma last_member_snoc {V} (k : string) (data : list (string * option V))
    (kv : string * option V) :
  last_member k (data ++ [kv])
  = if String.eqb kv.1 k then Some kv.2 else last_member k data.
Proof.
  unfold last_member, last_match. rewrite List.filter_app. cbn.
  destruct (String.eqb kv.1 k); [by rewrite last_snoc|by rewrite app_nil_r].
Qed.

Lemma location_setattr_fields (l : LocationInformation) (k : string)
    (v : option string) :
  let l' := if existsb (String.eqb k) LocationInformation_slots
            then LocationInformation_setattr l k v else l in
  state l' = (if String.eqb k "state" then v else state l)
  ∧ city l' = (if String.eqb k "city" then v else city l)
  ∧ street_address l'
    = (if String.eqb k "street_address" then v else street_address l)
  ∧ zip_code l' = (if String.eqb k "zip_code" then v else zip_code l).
Proof.
  unfold LocationInformation_setattr. cbn [existsb LocationInformation_slots].
  destruct (String.eqb k "state") eqn:E1.
  { apply String.eqb_eq in E1 as ->. by cbn. }
  destruct (String.eqb k "city") eqn:E2.
  { apply String.eqb_eq in E2 as ->. by cbn. }
  destruct (String.eqb k "street_address") eqn:E3.
  { apply String.eqb_eq in E3 as ->. by cbn. }
  destruct (String.eqb k "zip_code") eqn:E4.
  { apply String.eqb_eq in E4 as ->. by cbn. }
  by cbn.
Qed.

Lemma location_from_dict_last (l : LocationInformation)
    (data : list (string * option string)) :
  let l' := LocationInformation_from_dict l data in
  state l' = from_option id (state l) (last_member "state" data)
  ∧ city l' = from_option id (city l) (last_member "city" data)
  ∧ street_address l'
    = from_option id (street_address l) (last_member "street_address" data)
  ∧ zip_code l' = from_option id (zip_code l) (last_member "zip_code" data).
Proof.
  cbv zeta. induction data as [|kv data IH] using rev_ind; [done|].
  unfold LocationInformation_from_dict, BaseData_from_dict in *.
  rewrite fold_left_app. cbn [fold_left].
  rewrite !last_member_snoc.
  destruct IH as (I1 & I2 & I3 & I4).
  pose proof (location_setattr_fields
                (fold_left
                   (λ self kv0,
                      if existsb (String.eqb kv0.1) LocationInformation_slots
                      then LocationInformation_setattr self kv0.1 kv0.2
                      else self) data l) kv.1 kv.2) as (S1 & S2 & S3 & S4).
  cbv zeta in S1, S2, S3, S4. rewrite S1, S2, S3, S4, I1, I2, I3, I4.
  clear. repeat split; by destruct (String.eqb _ _).
Qed.

Lemma date_setattr_fields (d : DateInformation) (k : string) (v : option Z) :
  let d' := if existsb (String.eqb k) DateInformation_slots
            then DateInformation_setattr d k v else d in
  day d' = (if String.eqb k "day" then v else day d)
  ∧ month d' = (if String.eqb k "month" then v else month d)
  ∧ year d' = (if String.eqb k "year" then v else year d).
Proof.
  unfold DateInformation_setattr. cbn [existsb DateInformation_slots].
  destruct (String.eqb k "day") eqn:E1.
  { apply String.eqb_eq in E1 as ->. by cbn. }
  destruct (String.eqb k "month") eqn:E2.
  { apply String.eqb_eq in E2 as ->. by cbn. }
  destruct (String.eqb k "year") eqn:E3.
  { apply String.eqb_eq in E3 as ->. by cbn. }
  by cbn.
Qed.

Lemma date_from_dict_last (d : DateInformation)
    (data : list (string * option Z)) :
  let d' := DateInformation_from_dict d data in
  day d' = from_option id (day d) (last_member "day" data)
  ∧ month d' = from_option id (month d) (last_member "month" data)
  ∧ year d' = from_option id (year d) (last_member "year" data).
Proof.
  cbv zeta. induction data as [|kv data IH] using rev_ind; [done|].
  unfold DateInformation_from_dict, BaseData_from_dict in *.
  rewrite fold_left_app. cbn [fold_left].
  rewrite !last_member_snoc.
  destruct IH as (I1 & I2 & I3).
  pose proof (date_setattr_fields
                (fold_left
                   (λ self kv0,
                      if existsb (String.eqb kv0.1) DateInformation_slots
                      then DateInformation_setattr self kv0.1 kv0.2
                      else self) data d) kv.1 kv.2) as (S1 & S2 & S3).
  cbv zeta in S1, S2, S3. rewrite S1, S2, S3, I1, I2, I3.
  clear. repeat split; by destruct (String.eqb _ _).
Qed.

(** X3. [from_dict] on a location or a date leaves in each field the
    value of the last member of the object with that name ([None] for a
    [null]), keeps the field as it was when the object has no such member,
    and ignores members of any other name: an object made of such members
    only changes nothing. *)
Theorem from_dict_last_member (l : LocationInformation)
    (d : DateInformation) (ldata : list (string * option string))
    (ddata : list (string * option Z)) :
  (let l' := LocationInformation_from_dict l ldata in
   state l' = from_option id (state l) (last_member "state" ldata)
   ∧ city l' = from_option id (city l) (last_member "city" ldata)
   ∧ street_address l'
     = from_option id (street_address l)
         (last_member "street_address" ldata)
   ∧ zip_code l' = from_option id (zip_code l) (last_member "zip_code" ldata))
  ∧ (let d' := DateInformation_from_dict d ddata in
     day d' = from_option id (day d) (last_member "day" ddata)
     ∧ month d' = from_option id (month d) (last_member "month" ddata)
     ∧ year d' = from_option id (year d) (last_member "year" ddata))
  ∧ (Forall (λ kv, existsb (String.eqb kv.1) LocationInformation_slots
                   = false) ldata →
     LocationInformation_from_dict l ldata = l)
  ∧ (Forall (λ kv, existsb (String.eqb kv.1) DateInformation_slots = false)
       ddata →
     DateInformation_from_dict d ddata = d).
Proof.
  split; [apply location_from_dict_last|].
  split; [apply date_from_dict_last|].
  split.
  - unfold LocationInformation_from_dict, BaseData_from_dict.
    induction 1 as [|kv data Hkv _ IH]; [done|].
    cbn beta in Hkv. cbn [fold_left]. by rewrite Hkv.
  - unfold DateInformation_from_dict, BaseData_from_dict.
    induction 1 as [|kv data Hkv _ IH]; [done|].
    cbn beta in Hkv. cbn [fold_left]. by rewrite Hkv.
Qed.

Lemma from_dict_last_member_witness :
  LocationInformation_from_dict example_location
    [("country", Some "US"); ("planet", None)]
  = example_location.
Proof.
  apply (from_dict_last_member example_location DateInformation_new
           [("country", Some "US"); ("planet", None)] []).
  by repeat constructor.
Defined.

(** X4. Two locations read from JSON objects are equal exactly when, for
    each of the four fields, both objects end with the same string for it:
    the order of the members and members of other names play no part, and
    an object that lacks a field or has [null] for it gives a location
    equal to nothing. *)
Theorem location_from_dict_eq (d1 d2 : list (string * option string)) :
  LocationInformation_eq
    (LocationInformation_from_dict LocationInformation_new d1)
    (Some (LocationInformation_from_dict LocationInformation_new d2)) = true
  ↔ Forall
      (λ slot, ∃ v, last_member slot d1 = Some (Some v)
                    ∧ last_member slot d2 = Some (Some v))
      LocationInformation_slots.
Proof.
  pose proof (location_from_dict_last LocationInformation_new d1)
    as (A1 & A2 & A3 & A4).
  pose proof (location_from_dict_last LocationInformation_new d2)
    as (B1 & B2 & B3 & B4).
  cbv zeta in *. cbn [LocationInformation_new state city street_address
                      zip_code] in *.
  set (l1 := LocationInformation_from_dict _ d1) in *.
  set (l2 := LocationInformation_from_dict _ d2) in *.
  unfold LocationInformation_slots.
  rewrite !Forall_cons, Forall_nil, LocationInformation_eq_true. split.
  - intros (s & c & a & z & E1 & [= E2]). rewrite E2 in *. clear E2.
    rewrite E1 in *. cbn in *.
    repeat split; try done.
    + exists s. destruct (last_member "state" d1) as [[?|]|],
        (last_member "state" d2) as [[?|]|]; cbn in *; by simplify_eq.
    + exists c. destruct (last_member "city" d1) as [[?|]|],
        (last_member "city" d2) as [[?|]|]; cbn in *; by simplify_eq.
    + exists a. destruct (last_member "street_address" d1) as [[?|]|],
        (last_member "street_address" d2) as [[?|]|]; cbn in *;
        by simplify_eq.
    + exists z. destruct (last_member "zip_code" d1) as [[?|]|],
        (last_member "zip_code" d2) as [[?|]|]; cbn in *; by simplify_eq.
  - intros ((s & S1 & S2) & (c & C1 & C2) & (a & J1 & J2) & (z & Z1 & Z2) & _).
    rewrite S1, C1, J1, Z1 in *. rewrite S2, C2, J2, Z2 in *. cbn in *.
    exists s, c, a, z.
    destruct l1, l2; cbn in *; by simplify_eq.
Qed.

(** ** Construction *)

(** X5. [PackagingSystem.__init__] succeeds exactly when the configuration
    has all seven required keys; the system then holds the given tables and
    no order.  Otherwise it raises [KeyError] naming the first missing key
    in the order qualities, package_types, battery_packaging, weights,
    battery_base_value, distance, bonus. *)
Theorem init_requires_every_table (j : config_json) :
  match head (missing_keys j) with
  | Some key =>
      PackagingSystem_init j
      = Raise (KeyError ("failed to find " +:+ key
                         +:+ " in json configuration"))
  | None =>
      ∃ self, PackagingSystem_init j = Return self
        ∧ orders self = ∅
        ∧ cj_qualities j = Some (qualities self)
        ∧ cj_weights j = Some (weights self)
        ∧ cj_battery_base_value j = Some (battery_base_value self)
        ∧ cj_distance j = Some (distance self)
        ∧ cj_bonus j = Some (bonus self)
        ∧ is_Some (cj_package_types j)
        ∧ is_Some (cj_battery_packaging j)
  end.
Proof.
  destruct j as [[qs|] [pt|] [bp|] [ws|] [bv|] [ds|] [bs|]];
    try reflexivity.
  eexists. by repeat split.
Qed.

(** ** Adding and loading orders *)

(** X6. [add_order] stores the order under its id when the id is free,
    after which a lookup by that id returns it; when the id is taken the
    system is returned unchanged.  Either way every order stored before is
    still stored, unchanged, and the rate tables are untouched. *)
Theorem add_order_keeps_first (self : PackagingSystem) (order : Order)
    (i : Z) :
  order_id order = Some i →
  ∃ self',
    add_order self order = Some self'
    ∧ (orders self !! i = None →
       orders self' !! i = Some order
       ∧ ∀ loc dt c1 c2,
           find_orders self' (Some i) loc dt c1 c2 = Some [Some order])
    ∧ (is_Some (orders self !! i) → self' = self)
    ∧ (∀ j o, orders self !! j = Some o → orders self' !! j = Some o)
    ∧ (∀ j, j ≠ i → orders self' !! j = orders self !! j)
    ∧ set_orders (orders self) self' = self.
Proof.
  intros Hid. unfold add_order. rewrite Hid.
  destruct (orders self !! i) as [o|] eqn:Ho; eexists; (split; [done|]).
  - split; [done|]. split; [done|]. split; [done|]. split; [done|].
    by destruct self.
  - cbn. rewrite lookup_insert_eq.
    split; [done|].
    split; [by intros [? ?]|].
    split.
    { intros j o Hj. rewrite lookup_insert_ne; [done|congruence]. }
    split; [by intros j Hj; rewrite lookup_insert_ne|].
    by destruct self.
Qed.

Lemma add_order_keeps_first_witness :
  ∃ self',
    add_order example_system (example_order 1 25) = Some self'
    ∧ orders self' !! 1%Z = Some (example_order 1 20).
Proof.
  destruct (add_order_keeps_first example_system (example_order 1 25) 1)
    as (self' & Ha & _ & _ & Hkeep & _); [reflexivity|].
  exists self'. split; [done|]. apply Hkeep. vm_compute. reflexivity.
Defined.

Lemma last_match_snoc {A} (P : A → bool) (l : list A) (a : A) :
  last_match P (l ++ [a]) = if P a then Some a else last_match P l.
Proof.
  unfold last_match. rewrite List.filter_app. cbn.
  destruct (P a); [by rewrite last_snoc|by rewrite app_nil_r].
Qed.

Lemma Order_from_dict_new (r : order_json) :
  let o := Order_from_dict Order_init r in
  order_id o = json_id r ∧ unpriced o ∧ accepted o = PBool false.
Proof. by destruct r as [[i|] ? ? ? ?]. Qed.

Lemma add_simulated_data_loaded (self : PackagingSystem)
    (os : list order_json) (i : Z) :
  orders (_add_simulated_data self (Some os)) !! i
  = match last_match (has_json_id i) os with
    | Some r => Some (Order_from_dict Order_init r)
    | None => orders self !! i
    end
  ∧ (∀ r, last_match (has_json_id i) os = Some r →
       json_id r = Some i
       ∧ unpriced (Order_from_dict Order_init r)
       ∧ accepted (Order_from_dict Order_init r) = PBool false).
Proof.
  split.
  - induction os as [|r os IH] using rev_ind; [done|].
    cbn [_add_simulated_data] in *. rewrite fold_left_app, last_match_snoc.
    cbn [fold_left].
    pose proof (Order_from_dict_new r) as (Hid & _). cbv zeta in Hid.
    rewrite Hid. unfold has_json_id at 1.
    destruct (json_id r) as [j|]; [|done]. cbn.
    destruct (Z.eqb_spec i j) as [->|Hne].
    + by rewrite lookup_insert_eq.
    + rewrite lookup_insert_ne by done. apply IH.
  - intros r Hr. apply last_match_Some in Hr as (l1 & l2 & _ & Hm & _).
    pose proof (Order_from_dict_new r) as (_ & Hu & Ha).
    split; [|done]. unfold has_json_id in Hm.
    destruct (json_id r) as [j|]; [|done].
    by apply Z.eqb_eq in Hm as ->.
Qed.

(** X7. [_add_simulated_data] stores each JSON order that has an id under
    that id and drops the others; of several records with one id the last
    replaces the earlier ones.  Every order it stores is unpriced and not
    accepted, ids without a record keep the order they had, and the rate
    tables are untouched. *)
Theorem add_simulated_data_last_wins (self : PackagingSystem)
    (os : list order_json) (i : Z) :
  orders (_add_simulated_data self (Some os)) !! i
  = match last_match (has_json_id i) os with
    | Some r => Some (Order_from_dict Order_init r)
    | None => orders self !! i
    end
  ∧ (∀ r, last_match (has_json_id i) os = Some r →
       json_id r = Some i
       ∧ unpriced (Order_from_dict Order_init r)
       ∧ accepted (Order_from_dict Order_init r) = PBool false)
  ∧ set_orders (orders self) (_add_simulated_data self (Some os)) = self
  ∧ _add_simulated_data self None = self.
Proof.
  pose proof (add_simulated_data_loaded self os i) as [Hl Hr].
  split; [done|]. split; [done|]. split; [|done].
  clear. induction os as [|r os IH] using rev_ind; [by destruct self|].
  cbn [_add_simulated_data] in *. rewrite fold_left_app. cbn [fold_left].
  destruct (order_id (Order_from_dict Order_init r)); [|done].
  rewrite <- IH at 2. done.
Qed.

(** ** Replies to a quote *)

Lemma quote_reply_tables (self : PackagingSystem) (oid : Z) (answer : pyval) :
  set_orders (orders self) (quote_reply self oid answer) = self.
Proof.
  unfold quote_reply. destruct (orders self !! oid); by destruct self.
Qed.

Lemma quote_reply_other (self : PackagingSystem) (oid j : Z) (answer : pyval) :
  j ≠ oid → orders (quote_reply self oid answer) !! j = orders self !! j.
Proof.
  intros Hj. unfold quote_reply. destruct (orders self !! oid); [|done].
  cbn. by rewrite lookup_insert_ne.
Qed.

Lemma quote_reply_unknown (self : PackagingSystem) (oid : Z) (answer : pyval) :
  orders self !! oid = None → quote_reply self oid answer = self.
Proof. intros Ho. unfold quote_reply. by rewrite Ho. Qed.

(** X8. [quote_reply] changes nothing but the [accepted] flag of the order
    with the given id, which becomes the answer as it was passed; the
    cached quote of that order, every other order and the rate tables stay
    as they were, and for an unknown id the system is unchanged. *)
Theorem quote_reply_frame (self : PackagingSystem) (oid : Z)
    (answer : pyval) :
  let self' := quote_reply self oid answer in
  set_orders (orders self) self' = self
  ∧ (∀ j, j ≠ oid → orders self' !! j = orders self !! j)
  ∧ (orders self !! oid = None → self' = self)
  ∧ (∀ o, orders self !! oid = Some o →
       ∃ o', orders self' !! oid = Some o'
         ∧ accepted o' = answer
         ∧ total_cost o' = total_cost o
         ∧ df o' = df o
         ∧ order_id o' = order_id o
         ∧ location o' = location o
         ∧ date o' = date o
         ∧ packages o' = packages o
         ∧ distance_to_ship o' = distance_to_ship o).
Proof.
  cbv zeta. unfold quote_reply.
  destruct (orders self !! oid) as [o|] eqn:Ho.
  - split; [by destruct self|]. cbn.
    split; [by intros j Hj; rewrite lookup_insert_ne|].
    split; [done|]. intros o' [= <-].
    exists (set_accepted answer o). by rewrite lookup_insert_eq.
  - split; [by destruct self|]. by repeat split.
Qed.

(** X9. Of two replies for one order the later one alone counts, and
    replies for different orders can be made in either order. *)
Theorem quote_reply_last_wins (self : PackagingSystem) (i j : Z)
    (a b : pyval) :
  quote_reply (quote_reply self i a) i b = quote_reply self i b
  ∧ (i ≠ j →
     quote_reply (quote_reply self i a) j b
     = quote_reply (quote_reply self j b) i a).
Proof.
  split.
  - unfold quote_reply. destruct (orders self !! i) as [o|] eqn:Ho.
    + cbn. rewrite lookup_insert_eq. cbn. unfold set_orders. cbn.
      by rewrite insert_insert_eq.
    + by rewrite Ho.
  - intros Hne. unfold quote_reply.
    destruct (orders self !! i) as [o|] eqn:Ho,
             (orders self !! j) as [o'|] eqn:Ho'; cbn;
      rewrite ?lookup_insert_ne by done; rewrite ?Ho, ?Ho'; cbn; try done.
    unfold set_orders. cbn. f_equal. by apply insert_insert_ne.
Qed.

Lemma quote_reply_last_wins_witness :
  quote_reply (quote_reply example_system 1 (PBool true)) 2 (PBool true)
  = quote_reply (quote_reply example_system 2 (PBool true)) 1 (PBool true).
Proof.
  by apply (proj2 (quote_reply_last_wins example_system 1 2
                     (PBool true) (PBool true))).
Defined.

(** ** Quotes and replies do not interfere *)

Lemma package_loop_tables (self self' : PackagingSystem)
    (ps : list BatteryPackage) (v : package_vars) :
  qualities self' = qualities self →
  battery_base_value self' = battery_base_value self →
  package_loop self' ps v = package_loop self ps v.
Proof.
  intros Hq Hb. revert v. induction ps as [|p ps IH]; intros v; [done|].
  cbn. rewrite Hq, Hb. destruct (_ !! _); [apply IH|done].
Qed.

Lemma quote_compute_ext (self self' : PackagingSystem) (o o' : Order) :
  set_orders (orders self) self' = self →
  distance_to_ship o' = distance_to_ship o →
  packages o' = packages o →
  quote_compute self' o' = quote_compute self o.
Proof.
  intros Hs Hd Hp. unfold quote_compute. rewrite Hd, Hp.
  assert (qualities self' = qualities self ∧ weights self' = weights self
          ∧ battery_base_value self' = battery_base_value self
          ∧ distance self' = distance self ∧ bonus self' = bonus self)
    as (Hq & Hw & Hb & Hds & Hbo) by (by rewrite <- Hs).
  rewrite (package_loop_tables self self') by done.
  by rewrite Hw, Hds, Hbo.
Qed.

(** X10. A reply and a quote commute: whether an order is accepted or
    rejected, before or after it is priced, has no effect on the result of
    [quote], and both orders of the two calls end in the same system. *)
Theorem quote_reply_commutes (self : PackagingSystem) (i j : Z)
    (answer : pyval) :
  (quote (quote_reply self i answer) j).1 = (quote self j).1
  ∧ (quote (quote_reply self i answer) j).2
    = quote_reply (quote self j).2 i answer.
Proof.
  pose proof (quote_reply_tables self i answer) as Ht.
  pose proof (λ j, quote_reply_other self i j answer) as Hother.
  pose proof (quote_reply_unknown self i answer) as Hnone.
  set (self1 := quote_reply self i answer) in *.
  assert (∀ o, orders self !! j = Some o →
            ∃ o1, orders self1 !! j = Some o1
              ∧ total_cost o1 = total_cost o
              ∧ quote_compute self1 o1 = quote_compute self o
              ∧ (i = j → o1 = set_accepted answer o)
              ∧ (i ≠ j → o1 = o)) as Hj.
  { intros o Ho. destruct (decide (i = j)) as [->|Hne].
    - exists (set_accepted answer o). subst self1.
      rewrite (quote_reply_lookup _ _ _ _ Ho).
      repeat split; try done. by apply quote_compute_ext.
    - exists o. rewrite Hother by done.
      repeat split; try done. by apply quote_compute_ext. }
  destruct (quote_cases self j) as [Ho|o t Ho Htc|o e Ho Htc Hq|o q Ho Htc Hq].
  - assert (orders self1 !! j = None) as Ho1.
    { destruct (decide (i = j)) as [->|Hne].
      - by rewrite Hnone.
      - by rewrite Hother. }
    by rewrite (quote_unknown _ _ Ho1).
  - destruct (Hj o Ho) as (o1 & Ho1 & Htc1 & _).
    rewrite Htc in Htc1. by rewrite (quote_cached _ _ _ _ Ho1 Htc1).
  - destruct (Hj o Ho) as (o1 & Ho1 & Htc1 & Hq1 & _).
    rewrite Htc in Htc1. rewrite Hq in Hq1.
    by rewrite (quote_raises _ _ _ _ Ho1 Htc1 Hq1).
  - destruct (Hj o Ho) as (o1 & Ho1 & Htc1 & Hq1 & Heq & Hneq).
    rewrite Htc in Htc1. rewrite Hq in Hq1.
    rewrite (quote_fresh _ _ _ _ Ho1 Htc1 Hq1). split; [done|]. cbn.
    subst self1. unfold quote_reply. cbn.
    destruct (decide (i = j)) as [->|Hne].
    + rewrite Ho, lookup_insert_eq, (Heq eq_refl). cbn. unfold set_orders. cbn.
      by rewrite !insert_insert_eq.
    + rewrite lookup_insert_ne, (Hneq Hne) by done.
      destruct (orders self !! i) as [oi|] eqn:Hoi; [|done].
      unfold set_orders. cbn. f_equal. by apply insert_insert_ne.
Qed.

(** ** Which exception, and when *)

Lemma package_loop_first_unknown (self : PackagingSystem)
    (ps : list BatteryPackage) (v : package_vars) :
  match first_match (unknown_type self) ps with
  | Some p => package_loop self ps v = Raise (KeyError (battery_type p))
  | None => ∃ v', package_loop self ps v = Return v'
  end.
Proof.
  revert v. induction ps as [|p ps IH]; intros v; [by eexists|].
  unfold first_match in *. cbn. unfold unknown_type at 1.
  destruct (battery_base_value self !! battery_type p); [apply IH|done].
Qed.

(** X11. For a stored order that is not priced yet, [quote] returns the
    table exactly when every package has a battery type with a base value;
    otherwise it raises [KeyError] for the type of the first package, in
    the order of the list, that has none, and stores nothing. *)
Theorem quote_first_unknown_type (self : PackagingSystem) (oid : Z)
    (o : Order) :
  orders self !! oid = Some o →
  total_cost o = None →
  match first_match (unknown_type self) (packages o) with
  | Some p => quote self oid = (Raise (KeyError (battery_type p)), self)
  | None =>
      ∃ q, quote_compute self o = Return q
           ∧ quote self oid
             = (Return (QDataFrame (quote_table q)),
                set_orders (<[oid := priced q o]> (orders self)) self)
  end.
Proof.
  intros Ho Ht.
  pose proof (package_loop_first_unknown self (packages o)
                (mkPackageVars 0%Q 0%Q [] [] [] [])) as Hl.
  destruct (first_match (unknown_type self) (packages o)) as [p|].
  - apply (quote_raises _ _ o); [done..|]. unfold quote_compute.
    by rewrite Hl.
  - destruct Hl as [v' Hl].
    destruct (quote_compute self o) as [q|e] eqn:Hq.
    + exists q. split; [done|]. by apply quote_fresh.
    + unfold quote_compute in Hq. by rewrite Hl in Hq.
Qed.

Lemma quote_first_unknown_type_witness :
  quote unknown_type_system 7
  = (Raise (KeyError "nimh"), unknown_type_system).
Proof.
  apply (quote_first_unknown_type unknown_type_system 7 unknown_type_order).
  - vm_compute. reflexivity.
  - reflexivity.
Defined.

(** ** The shape of the table *)



Lemma quote_frame_tables (self : PackagingSystem) (oid : Z) :
  set_orders (orders self) (quote self oid).2 = self.
Proof.
  destruct (quote_cases self oid); by destruct self.
Qed.

(** ** What every sequence of calls keeps *)

Lemma handle_quote_request_state (psystem : PackagingSystem)
    (request : quote_request) :
  (handle_quote_request psystem request).2 = psystem
  ∨ (∃ oid, (handle_quote_request psystem request).2 = (quote psystem oid).2)
  ∨ (∃ oid answer,
       (handle_quote_request psystem request).2
       = quote_reply psystem oid answer).
Proof.
  unfold handle_quote_request.
  destruct (rq_is_json request); [|by left].
  destruct (rq_order_id request) as [oid|]; [|by left].
  destruct (rq_accept request) as [answer|].
  - right. right. unfold handle_quote_request_accept.
    destruct (negb (isinstance_bool answer)); by eexists _, _.
  - right. left. exists oid.
    by destruct (quote psystem oid) as [[[| |]|] ?].
Qed.

Lemma persists_refl (o : Order) : persists o o.
Proof. by repeat split. Qed.

Lemma persists_trans (o1 o2 o3 : Order) :
  persists o1 o2 → persists o2 o3 → persists o1 o3.
Proof.
  intros (A1 & A2 & A3 & A4 & A5 & A6) (B1 & B2 & B3 & B4 & B5 & B6).
  do 5 (split; [congruence|]).
  intros t Ht. destruct (A6 t Ht) as [Ht2 Hd].
  destruct (B6 t Ht2) as [Ht3 Hd']. split; congruence.
Qed.

Lemma quote_persists (self : PackagingSystem) (oid i : Z) (o : Order) :
  orders self !! i = Some o →
  ∃ o', orders (quote self oid).2 !! i = Some o' ∧ persists o o'.
Proof.
  intros Hi.
  destruct (quote_cases self oid) as [Ho|o1 t Ho Ht|o1 e Ho Ht Hq|o1 q Ho Ht Hq];
    try (exists o; split; [done|apply persists_refl]).
  cbn. destruct (decide (oid = i)) as [->|Hne].
  - rewrite lookup_insert_eq. eexists. split; [done|].
    rewrite Hi in Ho. injection Ho as <-.
    repeat split; try done; congruence.
  - rewrite lookup_insert_ne by done. exists o.
    split; [done|apply persists_refl].
Qed.

Lemma quote_reply_persists (self : PackagingSystem) (oid i : Z)
    (answer : pyval) (o : Order) :
  orders self !! i = Some o →
  ∃ o', orders (quote_reply self oid answer) !! i = Some o' ∧ persists o o'.
Proof.
  intros Hi. destruct (decide (oid = i)) as [->|Hne].
  - rewrite (quote_reply_lookup _ _ _ _ Hi). eexists. split; [done|].
    by repeat split.
  - rewrite quote_reply_other by done. exists o.
    split; [done|apply persists_refl].
Qed.

Lemma after_call_persists (self : PackagingSystem) (c : call) (i : Z)
    (o : Order) :
  orders self !! i = Some o →
  ∃ o', orders (after_call self c) !! i = Some o' ∧ persists o o'.
Proof.
  intros Hi. destruct c as [oid|oid answer|order|request]; cbn.
  - by apply quote_persists.
  - by apply quote_reply_persists.
  - exists o. split; [|apply persists_refl]. unfold add_order.
    destruct (order_id order) as [j|]; [|done].
    destruct (orders self !! j) eqn:Hj; [done|]. cbn.
    rewrite lookup_insert_ne; [done|congruence].
  - destruct (handle_quote_request_state self request)
      as [->|[[oid ->]|(oid & answer & ->)]].
    + exists o. split; [done|apply persists_refl].
    + by apply quote_persists.
    + by apply quote_reply_persists.
Qed.

Lemma after_call_tables (self : PackagingSystem) (c : call) :
  set_orders (orders self) (after_call self c) = self.
Proof.
  destruct c as [oid|oid answer|order|request]; cbn.
  - pose proof (quote_frame_tables self oid) as H. exact H.
  - apply quote_reply_tables.
  - unfold add_order. destruct (order_id order) as [j|]; [|by destruct self].
    destruct (orders self !! j); by destruct self.
  - destruct (handle_quote_request_state self request)
      as [->|[[oid ->]|(oid & answer & ->)]].
    + by destruct self.
    + apply quote_frame_tables.
    + apply quote_reply_tables.
Qed.

Lemma stored_orders_kept (self : PackagingSystem) (cs : list call) (i : Z)
    (o : Order) :
  orders self !! i = Some o →
  ∃ o', orders (after_calls self cs) !! i = Some o' ∧ persists o o'.
Proof.
  revert self o. induction cs as [|c cs IH]; intros self o Hi.
  - exists o. split; [done|apply persists_refl].
  - cbn. destruct (after_call_persists self c i o Hi) as (o1 & H1 & P1).
    destruct (IH _ _ H1) as (o' & H' & P').
    exists o'. split; [done|]. by eapply persists_trans.
Qed.

(** X13. Whatever calls follow ([quote], [quote_reply], [add_order],
    requests to the quote endpoint), an order once stored stays stored
    under its id with the same location, date, packages and distance, and
    a total and table once cached on it never change; so an order that
    matches a search keeps matching it.  The rate tables never change. *)
Theorem stored_orders_persist (self : PackagingSystem) (cs : list call)
    (i : Z) (o : Order) :
  orders self !! i = Some o →
  set_orders (orders self) (after_calls self cs) = self
  ∧ ∃ o', orders (after_calls self cs) !! i = Some o'
      ∧ persists o o'
      ∧ ∀ l dt, search_match l dt o' = search_match l dt o.
Proof.
  intros Hi. split.
  - clear. revert self. induction cs as [|c cs IH]; intros self.
    + by destruct self.
    + cbn. specialize (IH (after_call self c)).
      change (set_orders (orders self)
                (set_orders (orders (after_call self c))
                   (after_calls (after_call self c) cs)) = self).
      rewrite IH. apply after_call_tables.
  - destruct (stored_orders_kept self cs i o Hi) as (o' & Ho' & P).
    exists o'. split; [done|]. split; [done|].
    intros l dt. unfold search_match.
    by destruct P as (_ & -> & -> & _).
Qed.

Lemma stored_orders_persist_witness :
  ∃ o', orders (after_calls scenario_system
                  [CallQuote 4; CallQuoteReply 4 (PBool true); CallQuote 4;
                   CallAddOrder scenario_order]) !! 4%Z = Some o'
        ∧ persists scenario_order o'.
Proof.
  destruct (stored_orders_persist scenario_system
              [CallQuote 4; CallQuoteReply 4 (PBool true); CallQuote 4;
               CallAddOrder scenario_order] 4 scenario_order)
    as (_ & o' & H & P & _).
  - vm_compute. reflexivity.
  - by exists o'.
Defined.



(** ** From startup on *)








(** ** The quote endpoint *)

(** X15. When a request for a quote has been answered with the sheet, the
    same request made again, at any later time, does not answer: the call
    ends in [AttributeError], because [quote] now returns the cached
    number, on which [to_excel] does not exist.  The failed request
    changes nothing. *)
Theorem quote_request_again_fails (psystem psystem' : PackagingSystem)
    (request : quote_request) (oid : Z) (d : DataFrame) (cs : list call) :
  handle_quote_request psystem request = (inr (QuoteFile oid d), psystem') →
  request = mkQuoteRequest true (Some oid) None
  ∧ handle_quote_request psystem' request
    = (inl (AttributeError "to_excel"), psystem')
  ∧ handle_quote_request (after_calls psystem' cs) request
    = (inl (AttributeError "to_excel"), after_calls psystem' cs).
Proof.
  unfold handle_quote_request at 1. intros H.
  destruct request as [[] [i|] [answer|]]; cbn in H; try discriminate.
  { by destruct (handle_quote_request_accept psystem i answer) as [[m c] s]. }
  pose proof (quote_cases psystem i) as Hc.
  destruct (quote psystem i) as [[[|t|d']|e] s]; try discriminate.
  injection H as -> -> ->. cbn in Hc.
  inversion Hc as [| | |o q Ho Ht Hq Hd Hs]; subst.
  assert (∀ s o', orders s !! oid = Some o' → persists (priced q o) o' →
            handle_quote_request s (mkQuoteRequest true (Some oid) None)
            = (inl (AttributeError "to_excel"), s)) as Hagain.
  { intros s o' Ho' (_ & _ & _ & _ & _ & Hp).
    destruct (Hp (total_to_pay q) eq_refl) as [Ht' _].
    unfold handle_quote_request. cbn.
    by rewrite (quote_cached _ _ _ _ Ho' Ht'). }
  assert (orders (set_orders (<[oid:=priced q o]> (orders psystem)) psystem)
            !! oid = Some (priced q o)) as Hl by apply lookup_insert_eq.
  split; [done|]. split.
  - apply (Hagain _ (priced q o)); [done|apply persists_refl].
  - destruct (stored_orders_kept _ cs oid _ Hl) as (o' & Ho' & Hp).
    by apply (Hagain _ o').
Qed.

Lemma quote_request_again_fails_witness :
  let request := mkQuoteRequest true (Some 4%Z) None in
  (handle_quote_request scenario_system request).1
    = inr (QuoteFile 4 scenario_table)
  ∧ (handle_quote_request
       (handle_quote_request scenario_system request).2 request).1
    = inl (AttributeError "to_excel").
Proof.
  split; [vm_compute; reflexivity|].
  destruct (quote_request_again_fails scenario_system
              (handle_quote_request scenario_system
                 (mkQuoteRequest true (Some 4%Z) None)).2
              (mkQuoteRequest true (Some 4%Z) None) 4 scenario_table [])
    as (_ & H & _).
  - vm_compute. reflexivity.
  - cbv zeta. by rewrite H.
Defined.

(** X16. For an id that is not stored, a request for a quote is answered
    with status 400 and a request to accept or reject with status 200 and
    the text that the order was set, although nothing is stored; an answer
    that is not a boolean gets status 400.  None of these requests changes
    the system. *)
Theorem request_for_unknown_order (psystem : PackagingSystem) (oid : Z) :
  orders psystem !! oid = None →
  handle_quote_request psystem (mkQuoteRequest true (Some oid) None)
    = (inr (QuoteFailed oid), psystem)
  ∧ (∀ b : bool,
       handle_quote_request psystem
         (mkQuoteRequest true (Some oid) (Some (PBool b)))
       = (inr (QuoteAnswer (MsgSetTo oid b) 200), psystem))
  ∧ (∀ answer, isinstance_bool answer = false →
       handle_quote_request psystem
         (mkQuoteRequest true (Some oid) (Some answer))
       = (inr (QuoteAnswer MsgNotBool 400), psystem)).
Proof.
  intros Ho. split; [|split].
  - unfold handle_quote_request. cbn. by rewrite (quote_unknown _ _ Ho).
  - intros b. unfold handle_quote_request, handle_quote_request_accept,
      quote_reply. cbn. by rewrite Ho.
  - intros answer Hb. unfold handle_quote_request,
      handle_quote_request_accept, quote_reply. cbn. by rewrite Hb, Ho.
Qed.

Lemma request_for_unknown_order_witness :
  handle_quote_request example_system
    (mkQuoteRequest true (Some 5%Z) (Some (PBool true)))
  = (inr (QuoteAnswer (MsgSetTo 5 true) 200), example_system).
Proof.
  apply (request_for_unknown_order example_system 5). vm_compute. reflexivity.
Defined.

(** ** Searching with an incomplete location *)

(** X17. A search by a location of which some field is [None] finds
    nothing, whatever is stored, with or without a date and whatever the
    pool does: the result is the empty list, not an error. *)
Theorem find_orders_incomplete_location (self : PackagingSystem)
    (l : LocationInformation) (dt : option DateInformation)
    (completed1 completed2 : list nat) :
  has_null l = true →
  find_orders self None (Some l) dt completed1 completed2 = Some [].
Proof.
  intros Hn. unfold find_orders.
  assert (_find_inner_data (_simple_compare LocationInformation_eq) l
            (map_to_list (orders self)).*2 location completed1 = []) as ->.
  { unfold _find_inner_data. induction completed1 as [|i c IH]; [done|].
    cbn. rewrite IH.
    destruct ((map_to_list (orders self)).*2 !! i) as [y|]; [|done]. cbn.
    unfold _simple_compare.
    destruct (LocationInformation_eq l (location y)) eqn:E; [|done].
    apply LocationInformation_eq_true in E as (s & c' & a & z & -> & _).
    discriminate Hn. }
  by destruct dt.
Qed.

Lemma find_orders_incomplete_location_witness :
  find_orders example_system None
    (Some (mkLocation (Some "Virginia") (Some "Virginia Beach")
             (Some "123 Example Street") None))
    None [0; 1] []
  = Some [].
Proof.
  by apply find_orders_incomplete_location.
Defined.

(** ** What a price depends on *)

Lemma package_loop_same_battery (self self' : PackagingSystem)
    (ps ps' : list BatteryPackage) (v : package_vars) :
  qualities self' = qualities self →
  battery_base_value self' = battery_base_value self →
  Forall2 same_battery ps ps' →
  package_loop self' ps' v = package_loop self ps v.
Proof.
  intros Hq Hb HF. revert v.
  induction HF as [|p p' ps ps' (Ht & Hw & Hqu) HF IH]; intros v; [done|].
  cbn. unfold quality_loop. rewrite Hq, Hb, Ht, Hw, Hqu.
  destruct (_ !! _); [apply IH|done].
Qed.

(** X18. The price of an order depends on nothing but the rate tables,
    the distance of the order and the type, weight and quality of its
    packages: two systems with the same tables compute the same quote for
    two orders that agree on these, whatever their return reasons,
    locations, dates, ids and flags, and whatever else is stored. *)
Theorem quote_depends_on (self self' : PackagingSystem) (o o' : Order)
    (i i' : Z) :
  set_orders (orders self) self' = self →
  distance_to_ship o' = distance_to_ship o →
  Forall2 same_battery (packages o) (packages o') →
  quote_compute self' o' = quote_compute self o
  ∧ (orders self !! i = Some o → orders self' !! i' = Some o' →
     total_cost o = None → total_cost o' = None →
     (quote self' i').1 = (quote self i).1).
Proof.
  intros Hs Hd HF.
  assert (quote_compute self' o' = quote_compute self o) as Hq.
  { unfold quote_compute. rewrite Hd.
    assert (qualities self' = qualities self ∧ weights self' = weights self
            ∧ battery_base_value self' = battery_base_value self
            ∧ distance self' = distance self ∧ bonus self' = bonus self)
      as (Hqs & Hw & Hb & Hds & Hbo) by (by rewrite <- Hs).
    rewrite (package_loop_same_battery self self' (packages o) (packages o'))
      by done.
    rewrite Hw, Hds, Hbo. by rewrite (Forall2_length _ _ _ HF). }
  split; [done|]. intros Ho Ho' Ht Ht'.
  destruct (quote_compute self o) as [q|e] eqn:E.
  - by rewrite (quote_fresh _ _ _ _ Ho Ht E), (quote_fresh _ _ _ _ Ho' Ht' Hq).
  - by rewrite (quote_raises _ _ _ _ Ho Ht E), (quote_raises _ _ _ _ Ho' Ht' Hq).
Qed.

Lemma quote_depends_on_witness :
  quote_compute overlapping_system
    (Order_from_dict (example_order 3 1)
       (mkOrderJson None None None None
          (Some [mkPackage "li-ion" 1%Q 75%Q "recall"])))
  = quote_compute overlapping_system scenario_order.
Proof.
  apply (quote_depends_on overlapping_system overlapping_system
           scenario_order _ 4 4).
  - reflexivity.
  - reflexivity.
  - repeat constructor.
Defined.

(** ** The search of the info endpoint *)

Lemma None_in_address (request : info_request) :
  None_in [("state", ri_state request); ("city", ri_city request);
           ("street_address", ri_street_address request);
           ("zip_code", ri_zip_code request)]
  = has_null (mkLocation (ri_state request) (ri_city request)
                (ri_street_address request) (ri_zip_code request)).
Proof.
  by destruct (ri_state request), (ri_city request),
    (ri_street_address request), (ri_zip_code request).
Qed.

(** X19. An info request with the key [order_id] is a lookup by that id
    and nothing else: the address and date fields are not read.  Without
    that key, a request in which any of the four address fields is missing
    or [null] is refused, whatever its date; and a body that is not JSON
    is refused. *)
Theorem info_request_refused (psystem : PackagingSystem)
    (request : info_request) (completed1 completed2 : list nat) :
  (ri_is_json request = false →
     handle_info_request_orders psystem request completed1 completed2
     = InfoDoc)
  ∧ (ri_is_json request = true →
     ∀ i, ri_order_id request = Some (Some i) →
       handle_info_request_orders psystem request completed1 completed2
       = InfoOrders (Some [orders psystem !! i]))
  ∧ (ri_is_json request = true → ri_order_id request = Some None →
     handle_info_request_orders psystem request completed1 completed2
     = InfoOrders None)
  ∧ (ri_is_json request = true → ri_order_id request = None →
     has_null (mkLocation (ri_state request) (ri_city request)
                 (ri_street_address request) (ri_zip_code request)) = true →
     handle_info_request_orders psystem request completed1 completed2
     = InfoAddressError).
Proof.
  unfold handle_info_request_orders.
  split; [by intros ->|]. split; [by intros -> i ->|].
  split; [by intros -> ->|]. intros -> -> Hn.
  by rewrite None_in_address, Hn.
Qed.

Lemma info_request_refused_witness :
  handle_info_request_orders example_system
    (mkInfoRequest true None (Some 20%Z) (Some 9%Z) (Some 2023%Z)
       (Some "Virginia") (Some "Virginia Beach") None (Some "12345"))
    [0; 1] []
  = InfoAddressError.
Proof.
  by apply (info_request_refused example_system
              (mkInfoRequest true None (Some 20%Z) (Some 9%Z) (Some 2023%Z)
                 (Some "Virginia") (Some "Virginia Beach") None
                 (Some "12345"))).
Defined.

(** X20. An info request without [order_id] and with the four address
    fields finds, in some order, exactly the stored orders at that
    address; it narrows them to a date only when day, month and year are
    all three given, and searches by the address alone when any of them is
    missing. *)
Theorem info_request_search (psystem : PackagingSystem)
    (request : info_request) (completed1 completed2 : list nat)
    (s c a z : string) :
  ri_is_json request = true →
  ri_order_id request = None →
  ri_state request = Some s → ri_city request = Some c →
  ri_street_address request = Some a → ri_zip_code request = Some z →
  let l := mkLocation (Some s) (Some c) (Some a) (Some z) in
  completion_order (length (order_values psystem)) completed1 →
  (is_Some (request_date request) →
   completion_order
     (length (List.filter (search_match l None) (order_values psystem)))
     completed2) →
  ∃ res : list Order,
    handle_info_request_orders psystem request completed1 completed2
      = InfoOrders (Some (Some <$> res))
    ∧ res ≡ₚ List.filter (search_match l (request_date request))
               (order_values psystem)
    ∧ ∀ o, o ∈ res ↔
        (∃ i, orders psystem !! i = Some o)
        ∧ location o = Some l
        ∧ ∀ d, request_date request = Some d → date o = Some d.
Proof.
  intros Hj Hid Hs Hc Ha Hz l H1 H2.
  unfold handle_info_request_orders. rewrite Hj, Hid, Hs, Hc, Ha, Hz.
  assert ((if None_in [("day", ri_day request); ("month", ri_month request);
                       ("year", ri_year request)]
           then None
           else Some (DateInformation_from_dict DateInformation_new
                        [("day", ri_day request); ("month", ri_month request);
                         ("year", ri_year request)]))
          = request_date request) as ->.
  { unfold request_date.
    by destruct (ri_day request), (ri_month request), (ri_year request). }
  cbn [None_in existsb snd orb].
  change (LocationInformation_from_dict LocationInformation_new _) with l.
  destruct (find_orders_by_location psystem l (request_date request)
              completed1 completed2 H1 H2) as (res & E & P).
  exists res. split; [by rewrite E|]. split; [done|].
  intros o. rewrite P, elem_of_filter_search. split.
  - intros (Hst & Hl & Hd). split; [done|]. split.
    + by apply LocationInformation_eq_true in Hl as (? & ? & ? & ? & _ & ->).
    + intros d Hrd. specialize (Hd d Hrd).
      by apply DateInformation_eq_true in Hd as (? & ? & ? & _ & ->).
  - intros (Hst & Hl & Hd). split; [done|]. split.
    + rewrite Hl. apply LocationInformation_eq_true. by exists s, c, a, z.
    + intros d Hrd. rewrite (Hd d Hrd). apply DateInformation_eq_true.
      unfold request_date in Hrd.
      destruct (ri_day request) as [dd|], (ri_month request) as [mm|],
        (ri_year request) as [yy|]; try discriminate.
      injection Hrd as <-. by exists dd, mm, yy.
Qed.

Lemma info_request_search_witness :
  ∃ res : list Order,
    handle_info_request_orders example_system
      (mkInfoRequest true None (Some 20%Z) None (Some 2023%Z)
         (Some "Virginia") (Some "Virginia Beach")
         (Some "123 Example Street") (Some "12345"))
      [1; 0] []
    = InfoOrders (Some (Some <$> res))
    ∧ length res = 2.
Proof.
  destruct (info_request_search example_system
              (mkInfoRequest true None (Some 20%Z) None (Some 2023%Z)
                 (Some "Virginia") (Some "Virginia Beach")
                 (Some "123 Example Street") (Some "12345"))
              [1; 0] [] "Virginia" "Virginia Beach" "123 Example Street"
              "12345" eq_refl eq_refl eq_refl eq_refl eq_refl eq_refl)
    as (res & E & P & _).
  - vm_compute. apply perm_swap.
  - intros [d Hd]. discriminate.
  - exists res. split; [done|]. by rewrite P.
Defined.
